(** * mcp-vision: the image ingestion pipeline of [src/index.ts]

    A shallow embedding of the server's single tool, [vision.analyze]:
    reference detection, fetching, validation with [sharp], the resize
    decision, the size checks, the assembly of the Gemini request and the
    extraction of the answer.

    Conventions of the embedding.
    - A JavaScript string is a [string]: a sequence of 8-bit code units
      (the code units from 256 on, among them the line separators U+2028
      and U+2029, are outside the model).
    - A [Buffer] is a [list byte].
    - A JavaScript number that is an integer is a [Z]; [NaN] is [None]
      where the program can produce it ([parseInt]).
    - Everything outside the process (the network, the file system, the
      [sharp] codec, child processes) is a field of the record [World];
      each call to it is logged as an [Event], so that "before any fetch"
      is a statement about the log.
    - A function that can throw returns a [Result]; [async] functions live
      in the monad [M], which logs events and stops at the first throw. *)

From Stdlib Require Import ZArith List String Ascii Bool Lia.
From Stdlib Require Import Strings.Byte.
Import ListNotations.

Local Open Scope string_scope.
Local Open Scope Z_scope.

(** ** JavaScript strings *)

Module JsString.

Definition charCode (c : ascii) : Z := Z.of_nat (nat_of_ascii c).

Definition isUpper (c : ascii) : bool :=
  (65 <=? charCode c) && (charCode c <=? 90).

Definition isLower (c : ascii) : bool :=
  (97 <=? charCode c) && (charCode c <=? 122).

Definition isDigit (c : ascii) : bool :=
  (48 <=? charCode c) && (charCode c <=? 57).

(** Case folding of one code unit, on the ASCII letters. *)
Definition lowerChar (c : ascii) : ascii :=
  if isUpper c then ascii_of_nat (nat_of_ascii c + 32) else c.

(** [String.prototype.toLowerCase]. *)
Fixpoint toLowerCase (s : string) : string :=
  match s with
  | EmptyString => EmptyString
  | String c r => String (lowerChar c) (toLowerCase r)
  end.

(** [s.startsWith(p)]. *)
Definition startsWith (s p : string) : bool := String.prefix p s.

(** A literal at the start of [s], under the regular expression flag [i]. *)
Fixpoint startsWithIgnoreCase (s p : string) : bool :=
  match p, s with
  | EmptyString, _ => true
  | String _ _, EmptyString => false
  | String a p', String b s' =>
      Ascii.eqb (lowerChar a) (lowerChar b) && startsWithIgnoreCase s' p'
  end.

(** What is left of [s] after the literal [p], when [s] starts with it. *)
Fixpoint stripPrefix (p s : string) : option string :=
  match p, s with
  | EmptyString, _ => Some s
  | String _ _, EmptyString => None
  | String a p', String b s' =>
      if Ascii.eqb a b then stripPrefix p' s' else None
  end.

(** The longest prefix of [s] whose code units satisfy [f], and the rest:
    how a greedy class with [+] or [*] consumes. *)
Fixpoint span (f : ascii -> bool) (s : string) : string * string :=
  match s with
  | EmptyString => (EmptyString, EmptyString)
  | String c r =>
      if f c then let (a, b) := span f r in (String c a, b)
      else (EmptyString, s)
  end.

Fixpoint forallb (f : ascii -> bool) (s : string) : bool :=
  match s with
  | EmptyString => true
  | String c r => f c && forallb f r
  end.

Definition isEmpty (s : string) : bool :=
  match s with EmptyString => true | _ => false end.

(** The code units that [trim] and [parseInt] skip: TAB, LF, VT, FF, CR,
    SP and NBSP. *)
Definition isWhiteSpace (c : ascii) : bool :=
  let n := charCode c in
  ((9 <=? n) && (n <=? 13)) || (n =? 32) || (n =? 160).

(** The code units that [.] does not match in a regular expression. *)
Definition isLineTerminator (c : ascii) : bool :=
  let n := charCode c in (n =? 10) || (n =? 13).

Fixpoint trimStart (s : string) : string :=
  match s with
  | EmptyString => EmptyString
  | String c r => if isWhiteSpace c then trimStart r else s
  end.

(** Drops the white space at the end of [s]. *)
Fixpoint trimEnd (s : string) : string :=
  match s with
  | EmptyString => EmptyString
  | String c r =>
      match trimEnd r with
      | EmptyString => if isWhiteSpace c then EmptyString else String c EmptyString
      | r' => String c r'
      end
  end.

(** [String.prototype.trim]. *)
Definition trim (s : string) : string := trimEnd (trimStart s).

(** [b] is empty or starts with a code unit outside the class [f]: where
    a greedy class stops. *)
Definition stopsAt (f : ascii -> bool) (b : string) : Prop :=
  match b with
  | EmptyString => True
  | String c _ => f c = false
  end.

Definition length (s : string) : Z := Z.of_nat (String.length s).

End JsString.

(** ** Helper functions for image detection *)

(** [/^https?:\/\//i.test(s)] *)
Definition isURL (s : string) : bool :=
  JsString.startsWithIgnoreCase s "http://" ||
  JsString.startsWithIgnoreCase s "https://".

(** [/^file:\/\//i.test(s)] *)
Definition isFileURL (s : string) : bool :=
  JsString.startsWithIgnoreCase s "file://".

Definition notSemicolon (c : ascii) : bool := negb (Ascii.eqb c ";"%char).

(** [/^data:image\/[^;]+;base64,/.test(s)]: the class [[^;]+] can only stop
    in front of a [;], so it takes the whole run of other code units. *)
Definition isDataURI (s : string) : bool :=
  match JsString.stripPrefix "data:image/" s with
  | None => false
  | Some rest =>
      let (subtype, tail) := JsString.span notSemicolon rest in
      negb (JsString.isEmpty subtype) && JsString.startsWith tail ";base64,"
  end.

(** [s.startsWith("/") || /^[A-Za-z]:\\/.test(s)] *)
Definition isAbsPath (s : string) : bool :=
  JsString.startsWith s "/" ||
  match s with
  | String d (String c (String b _)) =>
      (JsString.isUpper d || JsString.isLower d)
      && Ascii.eqb c ":"%char && Ascii.eqb b "\"%char
  | _ => false
  end.

Definition notLineTerminator (c : ascii) : bool := negb (JsString.isLineTerminator c).

(** [/^data:([^;]+);base64,(.+)$/.exec(img)]: the two capture groups, or
    [None] for [null]. Without the flag [s] the dot stops at a line
    terminator, and without the flag [m] the [$] is the end of the input. *)
Definition execDataURI (img : string) : option (string * string) :=
  match JsString.stripPrefix "data:" img with
  | None => None
  | Some rest =>
      let (mime, tail) := JsString.span notSemicolon rest in
      if JsString.isEmpty mime then None
      else
        match JsString.stripPrefix ";base64," tail with
        | None => None
        | Some payload =>
            if JsString.isEmpty payload then None
            else if JsString.forallb notLineTerminator payload
                 then Some (mime, payload)
                 else None
        end
  end.

(** ** [Buffer] and [toString("base64")] *)

Definition Buffer := list byte.

Module Base64.

Definition alphabet : string :=
  "ABCDEFGHIJKLMNOPQRSTUVWXYZabcdefghijklmnopqrstuvwxyz0123456789+/".

Definition pad : ascii := "="%char.

(** The character of a 6-bit value. *)
Definition digit (n : Z) : ascii :=
  match String.get (Z.to_nat n) alphabet with
  | Some c => c
  | None => pad
  end.

Definition byteval (b : byte) : Z := Z.of_N (Byte.to_N b).

(** [buffer.toString("base64")]: three bytes give four characters, and a
    last group of one or two bytes is padded with [=]. *)
Fixpoint encode (b : Buffer) : string :=
  match b with
  | [] => EmptyString
  | [x] =>
      let n := byteval x in
      String (digit (n / 4)) (String (digit ((n mod 4) * 16))
        (String pad (String pad EmptyString)))
  | [x; y] =>
      let n := byteval x in
      let m := byteval y in
      String (digit (n / 4)) (String (digit ((n mod 4) * 16 + m / 16))
        (String (digit ((m mod 16) * 4)) (String pad EmptyString)))
  | x :: y :: z :: rest =>
      let n := byteval x in
      let m := byteval y in
      let k := byteval z in
      String (digit (n / 4)) (String (digit ((n mod 4) * 16 + m / 16))
        (String (digit ((m mod 16) * 4 + k / 64)) (String (digit (k mod 64))
          (encode rest))))
  end.

(** The 6-bit value of a character of the alphabet. *)
Fixpoint indexFrom (c : ascii) (s : string) (i : Z) : Z :=
  match s with
  | EmptyString => 0
  | String d r => if Ascii.eqb c d then i else indexFrom c r (i + 1)
  end.

Definition value (c : ascii) : Z := indexFrom c alphabet 0.

Definition byteOf (n : Z) : byte :=
  match Byte.of_N (Z.to_N n) with
  | Some b => b
  | None => x00
  end.

(** The bytes that a padded base64 text stands for. The program never
    decodes; this inverse states what "the same bytes" means for two
    encoded payloads. *)
Fixpoint decode (s : string) : Buffer :=
  match s with
  | String a (String b (String c (String d rest))) =>
      let v1 := value a in
      let v2 := value b in
      let v3 := value c in
      let v4 := value d in
      if Ascii.eqb c pad then [byteOf (v1 * 4 + v2 / 16)]
      else if Ascii.eqb d pad then
        [byteOf (v1 * 4 + v2 / 16); byteOf ((v2 mod 16) * 16 + v3 / 4)]
      else
        byteOf (v1 * 4 + v2 / 16)
          :: byteOf ((v2 mod 16) * 16 + v3 / 4)
          :: byteOf ((v3 mod 4) * 64 + v4)
          :: decode rest
  | _ => []
  end.

End Base64.

(** [buffer.length] *)
Definition bufferLength (b : Buffer) : Z := Z.of_nat (List.length b).

(** ** Security and size limits *)

Definition MAX_IMAGES : Z := 10.
Definition MAX_IMAGE_SIZE_MB : Z := 18.
Definition MAX_IMAGE_SIZE_BYTES : Z := MAX_IMAGE_SIZE_MB * 1024 * 1024.
(** The timer of [REQUEST_TIMEOUT_MS] is not modelled: a request that it
    aborts is a request that the world rejects. *)
Definition REQUEST_TIMEOUT_MS : Z := 60000.

(** ** Map sharp format to MIME type *)

(** The object literal of [formatToMime], as the list of its own keys. *)
Definition mimeMap : list (string * string) :=
  [ ("jpeg", "image/jpeg");
    ("jpg", "image/jpeg");
    ("png", "image/png");
    ("gif", "image/gif");
    ("webp", "image/webp");
    ("tiff", "image/tiff");
    ("avif", "image/avif");
    ("heif", "image/heif");
    ("heic", "image/heic") ].

Fixpoint lookup {A : Type} (k : string) (m : list (string * A)) : option A :=
  match m with
  | [] => None
  | (k', v) :: r => if String.eqb k k' then Some v else lookup k r
  end.

(** [map[format.toLowerCase()] || "image/png"], on the own keys of the
    literal. The two lower-case names that an object literal inherits,
    [constructor] and [__proto__], are no format that [sharp] reports:
    they are outside the model, which gives them the default where the
    code finds the inherited member. *)
Definition formatToMime (format : string) : string :=
  match lookup (JsString.toLowerCase format) mimeMap with
  | Some m => m
  | None => "image/png"
  end.

(** ** Normalize model name for provider *)

Definition normalizeModelName (model provider : string) : string :=
  if String.eqb provider "vertex" then
    match JsString.stripPrefix "models/" model with
    | Some r => r
    | None => model
    end
  else
    if JsString.startsWith model "models/" then model else "models/" ++ model.

(** ** Environment configuration *)

(** [process.env]. *)
Definition Env := string -> option string.

(** [v || d] on a string that may be [undefined]. *)
Definition orElse (v : option string) (d : string) : string :=
  match v with
  | Some (String c r) => String c r
  | _ => d
  end.

(** Truthiness of a string that may be [undefined]. *)
Definition truthyString (v : option string) : bool :=
  match v with
  | Some (String _ _) => true
  | _ => false
  end.

Fixpoint digitsValue (s : string) (acc : Z) : Z :=
  match s with
  | EmptyString => acc
  | String c r => digitsValue r (acc * 10 + (JsString.charCode c - 48))
  end.

(** [parseInt(s, 10)]: white space, a sign, then the longest run of decimal
    digits; [None] is [NaN]. The value is the exact integer: it is the
    number of the code up to 2^53 in absolute value; beyond, far above
    any image dimension, the code has the nearest double. *)
Definition parseInt10 (s : string) : option Z :=
  let s1 := JsString.trimStart s in
  let '(negative, s2) :=
    match s1 with
    | String "-"%char r => (true, r)
    | String "+"%char r => (false, r)
    | _ => (false, s1)
    end in
  let (digits, _) := JsString.span JsString.isDigit s2 in
  if JsString.isEmpty digits then None
  else Some (if negative then - digitsValue digits 0 else digitsValue digits 0).

Record Config := {
  PROVIDER : string;
  MODEL : string;
  API_KEY : option string;
  MAX_LONG_EDGE : option Z
}.

Definition loadConfig (env : Env) : Config :=
  {| PROVIDER := orElse (env "GEMINI_PROVIDER") "ais";
     MODEL := orElse (env "GEMINI_MODEL") "models/gemini-flash-lite-latest";
     API_KEY := env "GEMINI_API_KEY";
     MAX_LONG_EDGE :=
       match env "VISION_MAX_LONG_EDGE" with
       | Some (String c r) => parseInt10 (String c r)
       | _ => Some 2048
       end |}.

(** ** Types *)

Record InlineData := {
  mimeType : string;
  data : string
}.

(** [interface GeminiPart]: both fields are optional. *)
Record GeminiPart := {
  inlineData : option InlineData;
  text : option string
}.

Definition imagePart (mime payload : string) : GeminiPart :=
  {| inlineData := Some {| mimeType := mime; data := payload |}; text := None |}.

Definition textPart (t : string) : GeminiPart :=
  {| inlineData := None; text := Some t |}.

#[local] Set Warnings "-register-all".

(** A value that [JSON.parse] returns. A number is kept as the text that
    JavaScript prints for it; an object as the list of its own properties,
    one entry for each name. *)
Inductive Json :=
| JNull
| JBool (b : bool)
| JNumber (repr : string)
| JString (s : string)
| JArray (items : list Json)
| JObject (fields : list (string * Json)).

(** ** The world outside the process *)

(** What [sharp(buffer).metadata()] resolves to; each field may be absent. *)
Record Metadata := {
  format : option string;
  width : option Z;
  height : option Z
}.

(** What [request(img)] resolves to: the status, the [content-type] header
    and what [body.arrayBuffer()] resolves to ([None] when it rejects). *)
Record HttpResponse := {
  statusCode : Z;
  contentType : option string;
  arrayBuffer : option Buffer
}.

(** What the POST to the provider resolves to: the status, what
    [body.json()] resolves to ([None] when it rejects), and what
    [body.text()] resolves to when the handler of the [catch] calls it
    after [body.json()] rejected ([None] when it rejects too, as the
    HTTP client does for a body that was read already). *)
Record PostResponse := {
  postStatusCode : Z;
  postJson : option Json;
  postText : option string
}.

Record World := {
  (** [request(url, { signal })]; [None] when the promise rejects (network
      failure, or the abort of the timeout). *)
  requestGet : string -> option HttpResponse;
  (** [readFile(path)]; [None] when it rejects. *)
  readFile : string -> option Buffer;
  (** [fileURLToPath(url)]; [None] when it throws. *)
  fileURLToPath : string -> option string;
  (** [sharp(buffer).metadata()]; [None] when it rejects. *)
  sharpMetadata : Buffer -> option Metadata;
  (** [sharp(buffer).resize(w, h, { fit: "inside", withoutEnlargement: true }).toBuffer()];
      [None] when it rejects. *)
  sharpResizeInside : Z -> Z -> Buffer -> option Buffer;
  (** [request(url, { method: "POST", headers, body })]; the body is the
      JSON text of [{ contents: [{ role: "user", parts }] }] and is given
      by its [parts]; [None] when the promise rejects. *)
  requestPost : string -> list (string * string) -> list GeminiPart -> option PostResponse;
  (** The token of [google-auth-library]: [None] when the import or the
      client throws, [Some None] for a token that is not a string. *)
  authLibraryToken : option (option string);
  (** The standard output of [execAsync(cmd)]; [None] when it rejects. *)
  exec : string -> option string
}.

(** One entry of the log for each call that leaves the process. *)
Inductive Event :=
| EvRequestGet (url : string)
| EvReadFile (path : string)
| EvSharpMetadata (buffer : Buffer)
| EvSharpResize (w h : Z) (buffer : Buffer)
| EvRequestPost (url : string) (headers : list (string * string)) (parts : list GeminiPart)
| EvAuthLibrary
| EvExec (cmd : string).

(** ** Errors: one constructor for each place that throws *)

Inductive Error :=
| InvalidDataURIFormat
| DataURINotImage (mime : string)
| DataURITooLarge (payloadLength : Z)
| RequestRejected (url : string)
| FailedToFetchImage (status : Z)
| URLMustReturnImage (contentType : string)
| BodyRejected
| ImageTooLarge (length : Z)
| FileURLToPathThrew (url : string)
| ReadFileRejected (path : string)
| UnsupportedImageFormat (img : string)
| NotAValidImageFile
| InvalidOrCorruptedImage
| ResizeRejected
| ImageTooLargeAfterProcessing (length : Z)
| ApiKeyRequired
| ProjectRequired
| FailedToParseResponse (provider : string) (status : Z)
| GeminiApiError (provider : string) (status : Z) (message : option string)
| JsTypeError
| NoOutputFrom (cmd : string)
| ExecRejected (cmd : string)
| FailedToGetVertexToken
| UnknownTool (name : string)
| MissingImages
| MissingInstruction
| AtLeastOneImage
| TooManyImages (count : Z).

(** The names that the specification gives to the failures. *)
Inductive ErrorKind :=
| UnsupportedReferenceKind
| IoError
| TimeoutOrNetworkError
| HttpStatusError
| ContentTypeError
| SizeLimitError
| InvalidImageError
| ConfigurationError
| ProviderApiError
| CredentialResolutionError
| InvalidInvocation
| CountBoundError
| InternalError.

Definition kindOf (e : Error) : ErrorKind :=
  match e with
  | InvalidDataURIFormat => UnsupportedReferenceKind
  | DataURINotImage _ => ContentTypeError
  | DataURITooLarge _ => SizeLimitError
  | RequestRejected _ => TimeoutOrNetworkError
  | FailedToFetchImage _ => HttpStatusError
  | URLMustReturnImage _ => ContentTypeError
  | BodyRejected => TimeoutOrNetworkError
  | ImageTooLarge _ => SizeLimitError
  | FileURLToPathThrew _ => IoError
  | ReadFileRejected _ => IoError
  | UnsupportedImageFormat _ => UnsupportedReferenceKind
  | NotAValidImageFile => InvalidImageError
  | InvalidOrCorruptedImage => InvalidImageError
  | ResizeRejected => InternalError
  | ImageTooLargeAfterProcessing _ => SizeLimitError
  | ApiKeyRequired => ConfigurationError
  | ProjectRequired => ConfigurationError
  | FailedToParseResponse _ _ => ProviderApiError
  | GeminiApiError _ _ _ => ProviderApiError
  | JsTypeError => InternalError
  | NoOutputFrom _ => CredentialResolutionError
  | ExecRejected _ => CredentialResolutionError
  | FailedToGetVertexToken => CredentialResolutionError
  | UnknownTool _ => InvalidInvocation
  | MissingImages => InvalidInvocation
  | MissingInstruction => InvalidInvocation
  | AtLeastOneImage => CountBoundError
  | TooManyImages _ => CountBoundError
  end.

Inductive Result (A : Type) :=
| Ok (a : A)
| Throw (e : Error).
Arguments Ok {A} a.
Arguments Throw {A} e.

(** ** The monad of [async] functions: the log of the calls made, and the
    value or the exception *)

Definition M (A : Type) : Type := (list Event * Result A)%type.

Definition ret {A} (a : A) : M A := ([], Ok a).
Definition throw {A} (e : Error) : M A := ([], Throw e).
Definition bind {A B} (m : M A) (f : A -> M B) : M B :=
  match m with
  | (t, Ok a) => let (t', r) := f a in ((t ++ t')%list, r)
  | (t, Throw e) => (t, Throw e)
  end.
(** [try { m } catch { h }] *)
Definition tryCatch {A} (m : M A) (h : Error -> M A) : M A :=
  match m with
  | (t, Ok a) => (t, Ok a)
  | (t, Throw e) => let (t', r) := h e in ((t ++ t')%list, r)
  end.
(** A call to the world: logged, then resolved or rejected. *)
Definition call {A} (ev : Event) (r : option A) (e : Error) : M A :=
  ([ev], match r with Some a => Ok a | None => Throw e end).
Definition liftResult {A} (r : Result A) : M A := ([], r).

Definition log {A} (m : M A) : list Event := fst m.
Definition outcome {A} (m : M A) : Result A := snd m.

Declare Scope m_scope.
Delimit Scope m_scope with M.
Notation "x <- m ;; k" := (bind m (fun x => k))
  (at level 61, m at next level, right associativity) : m_scope.
Local Open Scope m_scope.

(** ** Reading the provider's answer *)

Module Js.

(** [v === undefined || v === null], for the operators [?.] and [??]. *)
Definition nullish (v : option Json) : bool :=
  match v with
  | None | Some JNull => true
  | _ => false
  end.

(** [v.k] for a value [v] that is not [null] and a property name [k] that
    no prototype defines ([candidates], [content], [parts], [text],
    [error], [message]): only an object has it. *)
Definition getProp (v : Json) (k : string) : option Json :=
  match v with
  | JObject fields => lookup k fields
  | _ => None
  end.

(** [v[0]] for a value [v] that is not [null]. *)
Definition index0 (v : Json) : option Json :=
  match v with
  | JArray items => nth_error items 0
  | JString (String c _) => Some (JString (String c EmptyString))
  | JObject fields => lookup "0" fields
  | _ => None
  end.

(** [ToString]: what [join] and a template literal apply to a value.
    An array prints its elements separated by commas; an object prints
    as [[object Object]] unless an own property hides [toString]. *)
Fixpoint toString (v : Json) : Result string :=
  match v with
  | JNull => Ok "null"
  | JBool true => Ok "true"
  | JBool false => Ok "false"
  | JNumber repr => Ok repr
  | JString s => Ok s
  | JArray items =>
      (fix joinComma (l : list Json) : Result string :=
         match l with
         | [] => Ok EmptyString
         | x :: r =>
             match (match x with JNull => Ok EmptyString | _ => toString x end) with
             | Throw e => Throw e
             | Ok sx =>
                 match r with
                 | [] => Ok sx
                 | _ =>
                     match joinComma r with
                     | Throw e => Throw e
                     | Ok sr => Ok (sx ++ "," ++ sr)
                     end
                 end
             end
         end) items
  | JObject fields =>
      match lookup "toString" fields with
      | Some _ => Throw JsTypeError
      | None => Ok "[object Object]"
      end
  end.

(** [elements.join(empty)], the join of the extraction, whose separator is
    the empty string: [undefined] and [null] print as nothing. *)
Fixpoint joinEmpty (elements : list (option Json)) : Result string :=
  match elements with
  | [] => Ok EmptyString
  | x :: r =>
      match (if nullish x then Ok EmptyString
             else match x with Some v => toString v | None => Ok EmptyString end) with
      | Throw e => Throw e
      | Ok sx =>
          match joinEmpty r with
          | Throw e => Throw e
          | Ok sr => Ok (sx ++ sr)
          end
      end
  end.

(** [parts.map((p) => p.text)]: reading [text] of [null] throws. *)
Fixpoint mapText (parts : list Json) : Result (list (option Json)) :=
  match parts with
  | [] => Ok []
  | JNull :: _ => Throw JsTypeError
  | p :: r =>
      match mapText r with
      | Throw e => Throw e
      | Ok l => Ok (getProp p "text" :: l)
      end
  end.

(** Truthiness, for [||]. *)
Definition truthy (v : option Json) : bool :=
  match v with
  | None | Some JNull | Some (JBool false) => false
  | Some (JNumber repr) => negb (String.eqb repr "0")
  | Some (JString s) => negb (JsString.isEmpty s)
  | _ => true
  end.

End Js.

(** [json.candidates?.[0]?.content?.parts?.map((p) => p.text).join(empty) ?? empty],
    where [empty] is the empty string: the expression of both
    [callGeminiAIStudio] and [callGeminiVertex]. *)
Definition extractText (json : Json) : Result string :=
  match json with
  | JNull => Throw JsTypeError
  | _ =>
    match Js.getProp json "candidates" with
    | None | Some JNull => Ok EmptyString
    | Some candidates =>
      match Js.index0 candidates with
      | None | Some JNull => Ok EmptyString
      | Some candidate =>
        match Js.getProp candidate "content" with
        | None | Some JNull => Ok EmptyString
        | Some content =>
          match Js.getProp content "parts" with
          | None | Some JNull => Ok EmptyString
          | Some (JArray parts) =>
              match Js.mapText parts with
              | Throw e => Throw e
              | Ok texts => Js.joinEmpty texts
              end
          | Some _ => Throw JsTypeError
          end
        end
      end
    end
  end.

(** [json.error?.message || JSON.stringify(json).substring(0, 200)] inside
    the template literal of the error: the provider's message, or [None]
    for the printed body, which is not modelled. *)
Definition apiErrorMessage (json : Json) : Result (option string) :=
  match json with
  | JNull => Throw JsTypeError
  | _ =>
    match Js.getProp json "error" with
    | None | Some JNull => Ok None
    | Some err =>
        let message := Js.getProp err "message" in
        if Js.truthy message then
          match message with
          | Some v =>
              match Js.toString v with
              | Ok s => Ok (Some s)
              | Throw e => Throw e
              end
          | None => Ok None
          end
        else Ok None
    end
  end.

(** ** The tool's arguments and result *)

(** [images: string | string[]] *)
Inductive Images :=
| ImagesString (s : string)
| ImagesArray (l : list string).

(** [request.params.arguments]; a parameter that is missing is [None]. *)
Record ToolArguments := {
  images : option Images;
  instruction : option string
}.

Module Content.
Record Item := {
  type : string;
  text : string
}.
End Content.

Record ToolResult := {
  content : list Content.Item
}.

(** [!images]: [undefined] and the empty string are falsy, an array is not. *)
Definition falsyImages (i : option Images) : bool :=
  match i with
  | None => true
  | Some (ImagesString s) => JsString.isEmpty s
  | Some (ImagesArray _) => false
  end.

(** [!instruction || instruction.trim().length === 0] *)
Definition blankInstruction (i : option string) : bool :=
  match i with
  | None => true
  | Some s => JsString.isEmpty s || (JsString.length (JsString.trim s) =? 0)
  end.

(** [!n] for a number that may be absent. *)
Definition falsyNumber (n : option Z) : bool :=
  match n with
  | None => true
  | Some z => z =? 0
  end.

(** ** The server *)

Section Server.

Variable env : Env.
Variable W : World.

Let cfg : Config := loadConfig env.

(** *** Process image buffer: validate, resize if needed, return Gemini part *)

(** The resize step of [processImageBuffer]: the buffer that goes on to
    the final size check. *)
Definition resizeIfNeeded (buffer : Buffer) (w h : Z) : M Buffer :=
  match MAX_LONG_EDGE cfg with
  | Some maxLongEdge =>
      if negb (maxLongEdge =? 0) && (maxLongEdge >? 0) then
        let maxDim := Z.max w h in
        if maxDim >? maxLongEdge then
          call (EvSharpResize maxLongEdge maxLongEdge buffer)
               (sharpResizeInside W maxLongEdge maxLongEdge buffer)
               ResizeRejected
        else ret buffer
      else ret buffer
  | None => ret buffer
  end.

(** The final size check of [processImageBuffer], and the part that it
    returns. *)
Definition finalSizeCheck (mime : string) (processedBuffer : Buffer) : M GeminiPart :=
  if bufferLength processedBuffer >? MAX_IMAGE_SIZE_BYTES then
    throw (ImageTooLargeAfterProcessing (bufferLength processedBuffer))
  else
    ret (imagePart mime (Base64.encode processedBuffer)).

Definition processImageBuffer (buffer : Buffer) : M GeminiPart :=
  (* ALWAYS validate it's a real image using sharp *)
  metadata <- call (EvSharpMetadata buffer) (sharpMetadata W buffer) NotAValidImageFile ;;
  if negb (truthyString (format metadata))
     || falsyNumber (width metadata) || falsyNumber (height metadata)
  then throw InvalidOrCorruptedImage
  else
    match format metadata, width metadata, height metadata with
    | Some fmt, Some w, Some h =>
        let mime := formatToMime fmt in
        processedBuffer <- resizeIfNeeded buffer w h ;;
        finalSizeCheck mime processedBuffer
    | _, _, _ => throw InvalidOrCorruptedImage
    end.

(** *** Convert image to Gemini part format *)

Definition toPart (img : string) : M GeminiPart :=
  if isDataURI img then
    match execDataURI img with
    | None => throw InvalidDataURIFormat
    | Some (mime, payload) =>
        if negb (JsString.startsWith mime "image/") then
          throw (DataURINotImage mime)
        else
          (* estimatedSize = payload.length * 3 / 4 > MAX_IMAGE_SIZE_BYTES *)
          if JsString.length payload * 3 >? MAX_IMAGE_SIZE_BYTES * 4 then
            throw (DataURITooLarge (JsString.length payload))
          else
            ret (imagePart mime payload)
    end
  else if isURL img then
    response <- call (EvRequestGet img) (requestGet W img) (RequestRejected img) ;;
    if negb (statusCode response =? 200) then
      throw (FailedToFetchImage (statusCode response))
    else
      let ctype := orElse (contentType response) EmptyString in
      if negb (JsString.startsWith ctype "image/") then
        throw (URLMustReturnImage ctype)
      else
        buffer <- liftResult (match arrayBuffer response with
                              | Some b => Ok b
                              | None => Throw BodyRejected
                              end) ;;
        if bufferLength buffer >? MAX_IMAGE_SIZE_BYTES then
          throw (ImageTooLarge (bufferLength buffer))
        else processImageBuffer buffer
  else
    filepath <- (if isFileURL img then
                   liftResult (match fileURLToPath W img with
                               | Some p => Ok p
                               | None => Throw (FileURLToPathThrew img)
                               end)
                 else ret img) ;;
    if isAbsPath filepath then
      buffer <- call (EvReadFile filepath) (readFile W filepath) (ReadFileRejected filepath) ;;
      processImageBuffer buffer
    else throw (UnsupportedImageFormat img).

(** *** Get Vertex AI access token *)

Definition tryCmd (cmd : string) : M string :=
  stdout <- call (EvExec cmd) (exec W cmd) (ExecRejected cmd) ;;
  let token := JsString.trim stdout in
  if JsString.isEmpty token then throw (NoOutputFrom cmd) else ret token.

Definition getVertexAccessToken : M string :=
  let explicit := env "GOOGLE_OAUTH_ACCESS_TOKEN" in
  if truthyString explicit
     && (JsString.length (JsString.trim (orElse explicit EmptyString)) >? 0)
  then ret (JsString.trim (orElse explicit EmptyString))
  else
    fromLibrary <- tryCatch
      (token <- call EvAuthLibrary (authLibraryToken W) FailedToGetVertexToken ;;
       match token with
       | Some t =>
           if negb (JsString.isEmpty t) && (JsString.length (JsString.trim t) >? 0)
           then ret (Some (JsString.trim t))
           else ret None
       | None => ret None
       end)
      (fun _ => ret None) ;;
    match fromLibrary with
    | Some t => ret t
    | None =>
        tryCatch (tryCmd "gcloud auth application-default print-access-token")
          (fun _ =>
             tryCatch (tryCmd "gcloud auth print-access-token")
               (fun _ => throw FailedToGetVertexToken))
    end.

(** *** Call Gemini *)

(** What both implementations do with the response. When [body.json()]
    rejects, the handler of the [catch] first awaits [body.text()]: when
    that rejects, its rejection is what escapes ([BodyRejected]), and the
    error of the handler, with the name of the provider and the status,
    is thrown only when the text could be read (its first 200 characters
    go into the message, which the error of the model does not carry). *)
Definition readResponse (provider : string) (response : PostResponse) : M string :=
  match postJson response with
  | None =>
      match postText response with
      | None => throw BodyRejected
      | Some _ => throw (FailedToParseResponse provider (postStatusCode response))
      end
  | Some json =>
      if negb (postStatusCode response =? 200) then
        message <- liftResult (apiErrorMessage json) ;;
        throw (GeminiApiError provider (postStatusCode response) message)
      else liftResult (extractText json)
  end.

Definition callGeminiAIStudio (parts : list GeminiPart) : M string :=
  if negb (truthyString (API_KEY cfg)) then throw ApiKeyRequired
  else
    let modelName := normalizeModelName (MODEL cfg) "ais" in
    let url := "https://generativelanguage.googleapis.com/v1beta/" ++ modelName
               ++ ":generateContent?key=" ++ orElse (API_KEY cfg) EmptyString in
    let headers := [("Content-Type", "application/json")] in
    response <- call (EvRequestPost url headers parts)
                     (requestPost W url headers parts) (RequestRejected url) ;;
    readResponse "Gemini" response.

Definition callGeminiVertex (parts : list GeminiPart) : M string :=
  let location := orElse (env "GEMINI_LOCATION") "us-central1" in
  let project := env "GOOGLE_CLOUD_PROJECT" in
  if negb (truthyString project) then throw ProjectRequired
  else
    accessToken <- getVertexAccessToken ;;
    let modelName := normalizeModelName (MODEL cfg) "vertex" in
    let url := "https://" ++ location ++ "-aiplatform.googleapis.com/v1/projects/"
               ++ orElse project EmptyString ++ "/locations/" ++ location
               ++ "/publishers/google/models/" ++ modelName ++ ":generateContent" in
    let headers := [("Content-Type", "application/json");
                    ("Authorization", "Bearer " ++ accessToken)] in
    response <- call (EvRequestPost url headers parts)
                     (requestPost W url headers parts) (RequestRejected url) ;;
    readResponse "Vertex" response.

Definition callGemini (parts : list GeminiPart) : M string :=
  if String.eqb (PROVIDER cfg) "vertex" then callGeminiVertex parts
  else callGeminiAIStudio parts.

(** *** The handler of [CallToolRequestSchema] *)

(** [for (const img of imageArray) parts.push(await toPart(img))] *)
Fixpoint convertAll (imageArray : list string) (parts : list GeminiPart)
  : M (list GeminiPart) :=
  match imageArray with
  | [] => ret parts
  | img :: rest =>
      part <- toPart img ;;
      convertAll rest (parts ++ [part])%list
  end.

Definition callTool (name : string) (args : ToolArguments) : M ToolResult :=
  if negb (String.eqb name "vision.analyze") then throw (UnknownTool name)
  else if falsyImages (images args) then throw MissingImages
  else if blankInstruction (instruction args) then throw MissingInstruction
  else
    match images args, instruction args with
    | Some imgs, Some instr =>
        (* Normalize images to array *)
        let imageArray :=
          match imgs with
          | ImagesArray l => l
          | ImagesString s => [s]
          end in
        if Z.of_nat (List.length imageArray) =? 0 then throw AtLeastOneImage
        else if Z.of_nat (List.length imageArray) >? MAX_IMAGES then
          throw (TooManyImages (Z.of_nat (List.length imageArray)))
        else
          parts <- convertAll imageArray [] ;;
          let parts := (parts ++ [textPart instr])%list in
          text <- callGemini parts ;;
          ret {| content := [ {| Content.type := "text"; Content.text := text |} ] |}
    | _, _ => throw MissingImages
    end.

End Server.

(** ** Definitions used to state the properties *)

Inductive ReferenceKind :=
| DataUri
| RemoteUrl
| FileUri
| AbsolutePath.

(** The branch of [toPart] that takes a reference: the tests of [toPart]
    in the order in which it makes them. [None]: no branch takes it. *)
Definition classify (img : string) : option ReferenceKind :=
  if isDataURI img then Some DataUri
  else if isURL img then Some RemoteUrl
  else if isFileURL img then Some FileUri
  else if isAbsPath img then Some AbsolutePath
  else None.

(** The same four tests in the order of the specification's Format
    Detector: remote URL, file URI, data URI, absolute path. *)
Definition classifySpec (ref : string) : option ReferenceKind :=
  if isURL ref then Some RemoteUrl
  else if isFileURL ref then Some FileUri
  else if isDataURI ref then Some DataUri
  else if isAbsPath ref then Some AbsolutePath
  else None.

(** [metadata] is what [processImageBuffer] accepts: a format that is not
    empty and two sides that are not zero. *)
Definition validMetadata (m : Metadata) (fmt : string) (w h : Z) : Prop :=
  format m = Some fmt /\ fmt <> EmptyString /\
  width m = Some w /\ w <> 0 /\ height m = Some h /\ h <> 0.

(** [candidate.content?.parts], for a candidate of the provider's answer. *)
Definition contentParts (candidate : Json) : option Json :=
  match Js.getProp candidate "content" with
  | None | Some JNull => None
  | Some c => Js.getProp c "parts"
  end.




(** The configuration lets [callGemini] reach its request: a key for AI
    Studio; a project and an access token for Vertex. *)
Definition providerReady (env : Env) (W : World) : Prop :=
  if String.eqb (PROVIDER (loadConfig env)) "vertex"
  then truthyString (env "GOOGLE_CLOUD_PROJECT") = true /\
       exists token, outcome (getVertexAccessToken env W) = Ok token
  else truthyString (API_KEY (loadConfig env)) = true.

Definition isPost (ev : Event) : Prop :=
  match ev with
  | EvRequestPost _ _ _ => True
  | _ => False
  end.


Definition isPostb (ev : Event) : bool :=
  match ev with
  | EvRequestPost _ _ _ => true
  | _ => false
  end.

(** How many requests to the provider a log holds. *)
Definition countPosts (t : list Event) : nat := List.length (filter isPostb t).

(** The eight MIME types of the table of [formatToMime]. *)
Definition imageTypes : list string :=
  [ "image/jpeg"; "image/png"; "image/gif"; "image/webp";
    "image/tiff"; "image/avif"; "image/heif"; "image/heic" ].

(** The two commands of the token chain, in the order of the source. *)
Definition adcCommand : string := "gcloud auth application-default print-access-token".
Definition userCommand : string := "gcloud auth print-access-token".

(** The lower-case names that the object literal of [formatToMime]
    inherits from [Object.prototype]: for these, and for no other
    lower-case key, the lookup of the code finds a member that
    [mimeMap] does not list. *)
Definition inheritedKey (k : string) : bool :=
  String.eqb k "constructor" || String.eqb k "__proto__".

(** The first integer from which a double no longer holds every integer:
    up to it, the number that [parseInt] returns is the number that the
    digits spell. *)
Definition exactIntegerBound : Z := 2 ^ 53.

(** What a source of the token chain gives: its text without the white
    space around it, when that leaves something. *)
Definition usable (source : option string) : option string :=
  match source with
  | Some s =>
      if JsString.isEmpty (JsString.trim s) then None else Some (JsString.trim s)
  | None => None
  end.

(** What [client.getAccessToken()] resolved to, when the library is
    there and it resolved to a string. *)
Definition libraryToken (W : World) : option string :=
  match authLibraryToken W with
  | Some token => token
  | None => None
  end.

(** The name of the provider in the messages of its errors: the literal
    of [callGeminiVertex], or that of [callGeminiAIStudio]. *)
Definition providerLabel (env : Env) : string :=
  if String.eqb (PROVIDER (loadConfig env)) "vertex" then "Vertex" else "Gemini".

(** ** Concrete environments and worlds, for the examples *)

(** No variable is set. *)
Definition emptyEnv : Env := fun _ => None.

(** Only the API key is set. *)
Definition keyEnv : Env :=
  fun k => if String.eqb k "GEMINI_API_KEY" then Some "secret" else None.


(** The API key, and resizing switched off. *)
Definition noResizeEnv : Env :=
  fun k =>
    if String.eqb k "GEMINI_API_KEY" then Some "secret"
    else if String.eqb k "VISION_MAX_LONG_EDGE" then Some "0"
    else None.

(** The Vertex provider with a project, and no explicit access token. *)
Definition vertexEnv : Env :=
  fun k =>
    if String.eqb k "GEMINI_PROVIDER" then Some "vertex"
    else if String.eqb k "GOOGLE_CLOUD_PROJECT" then Some "demo"
    else None.

(** A world in which every call fails. *)
Definition deadWorld : World :=
  {| requestGet := fun _ => None;
     readFile := fun _ => None;
     fileURLToPath := fun _ => None;
     sharpMetadata := fun _ => None;
     sharpResizeInside := fun _ _ _ => None;
     requestPost := fun _ _ _ => None;
     authLibraryToken := None;
     exec := fun _ => None |}.

Module Toy.

(** A toy image format: the byte 0x89, then the width and the height on
    two bytes each, then anything. *)
Definition image (w h : Z) : Buffer :=
  [ x89; Base64.byteOf (w / 256); Base64.byteOf (w mod 256);
    Base64.byteOf (h / 256); Base64.byteOf (h mod 256) ].

Definition metadata (b : Buffer) : option Metadata :=
  match b with
  | x89 :: wh :: wl :: hh :: hl :: _ =>
      Some {| format := Some "png";
              width := Some (256 * Base64.byteval wh + Base64.byteval wl);
              height := Some (256 * Base64.byteval hh + Base64.byteval hl) |}
  | _ => None
  end.

(** The nearest integer to [a / b], for [b] positive. *)
Definition roundDiv (a b : Z) : Z := (2 * a + b) / (2 * b).

(** The size that the toy codec gives an image of [w] by [h] pixels in a
    box of [boxW] by [boxH]: an image that fits keeps its size, a larger
    one is scaled down until it fits. This is the geometry of the toy
    only; what [sharp] does with a resize is not part of the model. *)
Definition insideDims (boxW boxH w h : Z) : Z * Z :=
  if (w <=? boxW) && (h <=? boxH) then (w, h)
  else if h * boxW <=? w * boxH then (boxW, roundDiv (h * boxW) w)
  else (roundDiv (w * boxH) h, boxH).

(** The codec of the toy format. *)
Definition resizeInside (boxW boxH : Z) (b : Buffer) : option Buffer :=
  match metadata b with
  | Some m =>
      match width m, height m with
      | Some w, Some h =>
          let (w', h') := insideDims boxW boxH w h in Some (image w' h')
      | _, _ => None
      end
  | None => None
  end.

Definition answer (t : string) : Json :=
  JObject [("candidates",
            JArray [JObject [("content",
                              JObject [("parts", JArray [JObject [("text", JString t)]])])]])].

(** Every file and every URL holds a toy image of 640 by 480 pixels,
    except the file [/etc/passwd], which holds text; the provider
    answers [ok]. *)
Definition world : World :=
  {| requestGet := fun _ =>
       Some {| statusCode := 200; contentType := Some "image/png";
               arrayBuffer := Some (image 640 480) |};
     readFile := fun path =>
       if String.eqb path "/etc/passwd" then Some (list_byte_of_string "root:x:0:0")
       else Some (image 640 480);
     fileURLToPath := fun url => JsString.stripPrefix "file://" url;
     sharpMetadata := metadata;
     sharpResizeInside := resizeInside;
     requestPost := fun _ _ _ =>
       Some {| postStatusCode := 200; postJson := Some (answer "ok"); postText := None |};
     authLibraryToken := None;
     exec := fun _ => None |}.


(** The world of [world] on a machine where only [gcloud auth login] was
    run: the credentials library is absent and the first command fails. *)
Definition gcloudWorld : World :=
  {| requestGet := requestGet world;
     readFile := readFile world;
     fileURLToPath := fileURLToPath world;
     sharpMetadata := metadata;
     sharpResizeInside := resizeInside;
     requestPost := requestPost world;
     authLibraryToken := None;
     exec := fun cmd =>
       if String.eqb cmd "gcloud auth print-access-token"
       then Some (String " " (String "t" (String "0" (String "k" (String "010"%char EmptyString)))))
       else None |}.



(** The world of [world], with a provider whose body is no JSON and
    cannot be read a second time. *)
Definition garbledWorld : World :=
  {| requestGet := requestGet world;
     readFile := readFile world;
     fileURLToPath := fileURLToPath world;
     sharpMetadata := metadata;
     sharpResizeInside := resizeInside;
     requestPost := fun _ _ _ =>
       Some {| postStatusCode := 502; postJson := None; postText := None |};
     authLibraryToken := None;
     exec := fun _ => None |}.

(** The world of [world], with a provider that refuses the request:
    status 429 and a message. *)
Definition busyWorld : World :=
  {| requestGet := requestGet world;
     readFile := readFile world;
     fileURLToPath := fileURLToPath world;
     sharpMetadata := metadata;
     sharpResizeInside := resizeInside;
     requestPost := fun _ _ _ =>
       Some {| postStatusCode := 429;
               postJson := Some (JObject [("error",
                                           JObject [("code", JNumber "429");
                                                    ("message", JString "quota")])]);
               postText := None |};
     authLibraryToken := None;
     exec := fun _ => None |}.


(** A buffer one byte over the size ceiling. *)
Definition hugeBuffer : Buffer := repeat x00 (Z.to_nat (MAX_IMAGE_SIZE_BYTES + 1)).

(** A codec whose resize gives back more than the ceiling allows. *)
Definition bloatWorld : World :=
  {| requestGet := fun _ => None;
     readFile := fun _ => None;
     fileURLToPath := fun _ => None;
     sharpMetadata := fun _ =>
       Some {| format := Some "png"; width := Some 4096; height := Some 4096 |};
     sharpResizeInside := fun _ _ _ => Some hugeBuffer;
     requestPost := fun _ _ _ => None;
     authLibraryToken := None;
     exec := fun _ => None |}.

End Toy.

(** * Properties *)

(** ** The monad *)

Lemma log_bind {A B} (m : M A) (f : A -> M B) a :
  outcome m = Ok a -> log (bind m f) = (log m ++ log (f a))%list.
Proof.
  destruct m as [t r]; simpl; intros ->.
  destruct (f a); reflexivity.
Qed.

Lemma outcome_bind {A B} (m : M A) (f : A -> M B) a :
  outcome m = Ok a -> outcome (bind m f) = outcome (f a).
Proof.
  destruct m as [t r]; simpl; intros ->.
  destruct (f a); reflexivity.
Qed.

Lemma bind_ret {A B} (a : A) (f : A -> M B) : bind (ret a) f = f a.
Proof.
  unfold bind, ret. destruct (f a); reflexivity.
Qed.

Lemma bind_lift_ok {A B} (a : A) (f : A -> M B) : bind (liftResult (Ok a)) f = f a.
Proof. exact (bind_ret a f). Qed.

Lemma hd_bind_call {A B} ev (r : option A) e (f : A -> M B) :
  hd_error (log (bind (call ev r e) f)) = Some ev.
Proof.
  unfold call, bind. destruct r as [a|]; [|reflexivity].
  destruct (f a); reflexivity.
Qed.

Lemma in_hd_error {A} (x : A) (l : list A) : hd_error l = Some x -> In x l.
Proof.
  destruct l as [|y r]; cbn; [discriminate|].
  intros E. injection E as ->. left. reflexivity.
Qed.

(** ** Base64 keeps the bytes *)

Module Base64Facts.
Import Base64.

Lemma byteval_range b : 0 <= byteval b < 256.
Proof.
  unfold byteval. pose proof (Byte.to_N_bounded b) as H.
  split; [apply N2Z.is_nonneg | ].
  apply N.lt_succ_r in H. apply N2Z.inj_lt in H. exact H.
Qed.

Lemma byteOf_byteval b : byteOf (byteval b) = b.
Proof.
  unfold byteOf, byteval. rewrite N2Z.id, Byte.of_to_N. reflexivity.
Qed.

Lemma digit_spec n :
  0 <= n < 64 -> value (digit n) = n /\ Ascii.eqb (digit n) pad = false.
Proof.
  intros H.
  assert (E : exists k, n = Z.of_nat k /\ (k < 64)%nat).
  { exists (Z.to_nat n). split; lia. }
  destruct E as (k & -> & Hk). clear H.
  do 64 (destruct k as [|k]; [vm_compute; split; reflexivity | ]).
  lia.
Qed.

Lemma value_digit n : 0 <= n < 64 -> value (digit n) = n.
Proof. intros H; apply (digit_spec n H). Qed.

Lemma digit_not_pad n : 0 <= n < 64 -> Ascii.eqb (digit n) pad = false.
Proof. intros H; apply (digit_spec n H). Qed.

Lemma sextets n m k :
  0 <= n < 256 -> 0 <= m < 256 -> 0 <= k < 256 ->
  0 <= n / 4 < 64 /\
  0 <= (n mod 4) * 16 + m / 16 < 64 /\
  0 <= (m mod 16) * 4 + k / 64 < 64 /\
  0 <= k mod 64 < 64 /\
  (n / 4) * 4 + ((n mod 4) * 16 + m / 16) / 16 = n /\
  (((n mod 4) * 16 + m / 16) mod 16) * 16 + ((m mod 16) * 4 + k / 64) / 4 = m /\
  (((m mod 16) * 4 + k / 64) mod 4) * 64 + k mod 64 = k.
Proof.
  intros Hn Hm Hk.
  repeat split; Z.div_mod_to_equations; lia.
Qed.

Lemma list_ind3 {A} (P : list A -> Prop) :
  P [] -> (forall x, P [x]) -> (forall x y, P [x; y]) ->
  (forall x y z r, P r -> P (x :: y :: z :: r)) ->
  forall l, P l.
Proof.
  intros H0 H1 H2 H3.
  fix IH 1.
  intros [|x [|y [|z r]]].
  - exact H0.
  - apply H1.
  - apply H2.
  - apply H3, IH.
Qed.

Theorem decode_encode (b : Buffer) : decode (encode b) = b.
Proof.
  induction b as [|x|x y|x y z r IH] using list_ind3.
  - reflexivity.
  - pose proof (byteval_range x) as Hx.
    destruct (sextets (byteval x) 0 0 Hx) as (A1 & A2 & _ & _ & E1 & _); try lia.
    change (0 / 16) with 0 in *. rewrite Z.add_0_r in *.
    cbn [encode decode]. rewrite Ascii.eqb_refl.
    rewrite !value_digit by assumption.
    rewrite E1, byteOf_byteval. reflexivity.
  - pose proof (byteval_range x) as Hx. pose proof (byteval_range y) as Hy.
    destruct (sextets (byteval x) (byteval y) 0 Hx Hy) as (A1 & A2 & A3 & _ & E1 & E2 & _); try lia.
    change (0 / 64) with 0 in *. rewrite Z.add_0_r in *.
    cbn [encode decode]. rewrite Ascii.eqb_refl.
    rewrite (digit_not_pad _ A3).
    rewrite !value_digit by assumption.
    rewrite E1, E2, !byteOf_byteval. reflexivity.
  - pose proof (byteval_range x) as Hx. pose proof (byteval_range y) as Hy.
    pose proof (byteval_range z) as Hz.
    destruct (sextets (byteval x) (byteval y) (byteval z) Hx Hy Hz)
      as (A1 & A2 & A3 & A4 & E1 & E2 & E3).
    cbn [encode decode].
    rewrite (digit_not_pad _ A3), (digit_not_pad _ A4).
    rewrite !value_digit by assumption.
    rewrite E1, E2, E3, !byteOf_byteval, IH. reflexivity.
Qed.

Corollary encode_injective (b1 b2 : Buffer) :
  encode b1 = encode b2 -> b1 = b2.
Proof.
  intros H. rewrite <- (decode_encode b1), <- (decode_encode b2), H. reflexivity.
Qed.

End Base64Facts.

(** ** Reference detection *)

Example isURL_upper : isURL "HTTPS://x/y.png" = true.
Proof. reflexivity. Qed.

Example isAbsPath_drive : isAbsPath "C:\Users\a.png" = true.
Proof. reflexivity. Qed.

Example isAbsPath_relative : isAbsPath "img/a.png" = false.
Proof. reflexivity. Qed.

Example execDataURI_groups :
  execDataURI "data:image/png;base64,AAAA" = Some ("image/png", "AAAA").
Proof. reflexivity. Qed.

Example execDataURI_empty_payload : execDataURI "data:image/png;base64," = None.
Proof. reflexivity. Qed.

Module JsStringFacts.
Import JsString.

Lemma stripPrefix_spec p s r : stripPrefix p s = Some r <-> s = p ++ r.
Proof.
  revert s. induction p as [|a p IH]; intros s; cbn.
  - split; [intros E; injection E as ->; reflexivity | intros ->; reflexivity].
  - destruct s as [|b s]; [split; discriminate|].
    destruct (Ascii.eqb_spec a b) as [->|N].
    + rewrite IH. split; [intros ->; reflexivity | intros E; injection E as ->; reflexivity].
    + split; [discriminate | intros E; injection E as E1 _; congruence].
Qed.

Lemma startsWith_spec s p : startsWith s p = true <-> exists r, s = p ++ r.
Proof.
  unfold startsWith. revert s. induction p as [|a p IH]; intros s.
  - destruct s; cbn; split; eauto.
  - destruct s as [|b s]; cbn.
    + split; [discriminate | intros (r & E); discriminate E].
    + destruct (Ascii.ascii_dec a b) as [->|N].
      * rewrite IH. split; intros (r & E); exists r;
          [rewrite E; reflexivity | injection E as ->; reflexivity].
      * split; [discriminate | intros (r & E); injection E as E1 _; congruence].
Qed.

(** The run that a greedy class takes is fixed by the string: it is the
    only split whose first half lies in the class and whose second half
    stops the class. *)
Lemma span_spec f s a b :
  span f s = (a, b) <-> s = a ++ b /\ forallb f a = true /\ stopsAt f b.
Proof.
  revert a b. induction s as [|c s IH]; intros a b; cbn.
  - split.
    + intros E. injection E as <- <-. cbn. auto.
    + intros (E & _ & _). destruct a; [|discriminate E]. cbn in E. subst b. reflexivity.
  - destruct (f c) eqn:Fc.
    + destruct (span f s) as [a0 b0] eqn:Sp.
      split.
      * intros E. injection E as <- <-.
        destruct (proj1 (IH a0 b0) eq_refl) as (-> & Fa & St).
        cbn. rewrite Fc, Fa. auto.
      * intros (E & Fa & St). destruct a as [|c' a'].
        -- cbn in E. subst b. cbn in St. congruence.
        -- cbn in E. injection E as <- E. cbn in Fa. apply andb_true_iff in Fa.
           destruct Fa as [_ Fa].
           pose proof (proj2 (IH a' b) (conj E (conj Fa St))) as X.
           congruence.
    + split.
      * intros E. injection E as <- <-. cbn. auto.
      * intros (E & Fa & St). destruct a as [|c' a'].
        -- cbn in E. subst b. reflexivity.
        -- cbn in E. injection E as <- E. cbn in Fa. rewrite Fc in Fa. discriminate.
Qed.

Lemma isEmpty_false s : isEmpty s = false <-> s <> EmptyString.
Proof. destruct s; cbn; split; congruence. Qed.

End JsStringFacts.

(** The two regular expressions of the data URI, read as sets of strings. *)
Lemma isDataURI_spec s :
  isDataURI s = true <->
  exists subtype rest,
    s = "data:image/" ++ subtype ++ ";base64," ++ rest /\
    subtype <> EmptyString /\ JsString.forallb notSemicolon subtype = true.
Proof.
  unfold isDataURI. split.
  - destruct (JsString.stripPrefix "data:image/" s) as [r0|] eqn:P; [|discriminate].
    apply JsStringFacts.stripPrefix_spec in P.
    destruct (JsString.span notSemicolon r0) as [sub tail] eqn:Sp.
    apply JsStringFacts.span_spec in Sp. destruct Sp as (-> & Fa & _).
    intros H. apply andb_true_iff in H. destruct H as [Hne Hst].
    apply negb_true_iff, JsStringFacts.isEmpty_false in Hne.
    apply JsStringFacts.startsWith_spec in Hst. destruct Hst as (rest & ->).
    exists sub, rest. auto.
  - intros (sub & rest & -> & Hne & Fa).
    rewrite (proj2 (JsStringFacts.stripPrefix_spec "data:image/" _
                      (sub ++ ";base64," ++ rest)) eq_refl).
    rewrite (proj2 (JsStringFacts.span_spec notSemicolon _ sub (";base64," ++ rest))
               (conj eq_refl (conj Fa eq_refl))).
    apply andb_true_iff. split.
    + apply negb_true_iff, JsStringFacts.isEmpty_false. exact Hne.
    + apply JsStringFacts.startsWith_spec. exists rest. reflexivity.
Qed.

Lemma execDataURI_spec img mime payload :
  execDataURI img = Some (mime, payload) <->
  img = "data:" ++ mime ++ ";base64," ++ payload /\
  mime <> EmptyString /\ JsString.forallb notSemicolon mime = true /\
  payload <> EmptyString /\ JsString.forallb notLineTerminator payload = true.
Proof.
  unfold execDataURI. split.
  - destruct (JsString.stripPrefix "data:" img) as [r0|] eqn:P; [|discriminate].
    apply JsStringFacts.stripPrefix_spec in P.
    destruct (JsString.span notSemicolon r0) as [m tail] eqn:Sp.
    apply JsStringFacts.span_spec in Sp. destruct Sp as (-> & Fa & _).
    destruct (JsString.isEmpty m) eqn:Em; [discriminate|].
    apply JsStringFacts.isEmpty_false in Em.
    destruct (JsString.stripPrefix ";base64," tail) as [pl|] eqn:P2; [|discriminate].
    apply JsStringFacts.stripPrefix_spec in P2. subst tail.
    destruct (JsString.isEmpty pl) eqn:Ep; [discriminate|].
    apply JsStringFacts.isEmpty_false in Ep.
    destruct (JsString.forallb notLineTerminator pl) eqn:Fl; [|discriminate].
    intros E. injection E as <- <-. auto.
  - intros (-> & Hm & Fm & Hp & Fp).
    rewrite (proj2 (JsStringFacts.stripPrefix_spec "data:" _
                      (mime ++ ";base64," ++ payload)) eq_refl).
    rewrite (proj2 (JsStringFacts.span_spec notSemicolon _ mime (";base64," ++ payload))
               (conj eq_refl (conj Fm eq_refl))).
    rewrite (proj2 (JsStringFacts.isEmpty_false mime) Hm).
    rewrite (proj2 (JsStringFacts.stripPrefix_spec ";base64," _ payload) eq_refl).
    rewrite (proj2 (JsStringFacts.isEmpty_false payload) Hp).
    rewrite Fp. reflexivity.
Qed.

(** A reference that passes [isDataURI] declares a type under [image/]:
    the test on the declared type in the data-URI branch cannot fail. *)
Lemma data_uri_mime_is_image img mime payload :
  isDataURI img = true -> execDataURI img = Some (mime, payload) ->
  JsString.startsWith mime "image/" = true.
Proof.
  intros D E.
  apply isDataURI_spec in D. destruct D as (sub & rest & D & _ & Fs).
  apply execDataURI_spec in E. destruct E as (E & _ & Fm & _).
  rewrite D in E. injection E as E.
  assert (S1 : JsString.span notSemicolon ("image/" ++ sub ++ ";base64," ++ rest)
               = ("image/" ++ sub, ";base64," ++ rest)).
  { apply JsStringFacts.span_spec. repeat split. cbn. exact Fs. }
  assert (S2 : JsString.span notSemicolon (mime ++ ";base64," ++ payload)
               = (mime, ";base64," ++ payload)).
  { apply JsStringFacts.span_spec. repeat split. exact Fm. }
  assert (X : ("image/" ++ sub, ";base64," ++ rest) = (mime, ";base64," ++ payload)).
  { rewrite <- S1, <- S2. f_equal. exact E. }
  injection X as <- _. apply JsStringFacts.startsWith_spec. exists sub. reflexivity.
Qed.

Lemma isDataURI_first s : isDataURI s = true -> exists r, s = String "d" r.
Proof.
  unfold isDataURI. destruct s as [|c r]; cbn [JsString.stripPrefix]; [discriminate|].
  destruct (Ascii.eqb_spec "d"%char c) as [<-|]; [eauto | discriminate].
Qed.

Lemma isDataURI_not_URL s : isDataURI s = true -> isURL s = false.
Proof. intros H. destruct (isDataURI_first s H) as [r ->]. reflexivity. Qed.

Lemma isDataURI_not_FileURL s : isDataURI s = true -> isFileURL s = false.
Proof. intros H. destruct (isDataURI_first s H) as [r ->]. reflexivity. Qed.

(** The four tests exclude one another where it matters, so the order of
    [toPart] and the order of the specification give the same kind. *)
Lemma classify_order (s : string) : classify s = classifySpec s.
Proof.
  unfold classify, classifySpec.
  destruct (isDataURI s) eqn:D.
  - rewrite (isDataURI_not_URL s D), (isDataURI_not_FileURL s D). reflexivity.
  - reflexivity.
Qed.

(** What [toPart] does is decided by the kind of the reference: a data URI
    makes no call at all, a remote URL starts with its GET, a path starts
    with reading that file, and anything else is refused without a call. *)
Lemma toPart_by_kind env W img :
  match classify img with
  | Some DataUri => log (toPart env W img) = []
  | Some RemoteUrl => hd_error (log (toPart env W img)) = Some (EvRequestGet img)
  | Some FileUri =>
      match fileURLToPath W img with
      | None => toPart env W img = ([], Throw (FileURLToPathThrew img))
      | Some p =>
          if isAbsPath p
          then hd_error (log (toPart env W img)) = Some (EvReadFile p)
          else toPart env W img = ([], Throw (UnsupportedImageFormat img))
      end
  | Some AbsolutePath => hd_error (log (toPart env W img)) = Some (EvReadFile img)
  | None => toPart env W img = ([], Throw (UnsupportedImageFormat img))
  end.
Proof.
  unfold classify, toPart.
  destruct (isDataURI img) eqn:D.
  - destruct (execDataURI img) as [[mime payload]|]; [|reflexivity].
    destruct (negb (JsString.startsWith mime "image/")); [reflexivity|].
    destruct (JsString.length payload * 3 >? MAX_IMAGE_SIZE_BYTES * 4); reflexivity.
  - destruct (isURL img) eqn:U.
    + apply hd_bind_call.
    + destruct (isFileURL img) eqn:F.
      * destruct (fileURLToPath W img) as [p|]; [|reflexivity].
        rewrite bind_lift_ok.
        destruct (isAbsPath p); [apply hd_bind_call | reflexivity].
      * rewrite bind_ret.
        destruct (isAbsPath img); [apply hd_bind_call | reflexivity].
Qed.

(** C7. The five references of the specification: [https://x/y.png] is
    fetched as a remote URL, [file:///tmp/a.jpg] is converted to a path and
    read, [/tmp/a.jpg] is read as an absolute path,
    [data:image/png;base64,AAAA] is taken as a data URI without any call,
    and [ftp://x] is refused as an unsupported reference before any call.
    The kind depends on the string alone: [classify] takes neither the
    environment nor the world. *)
Theorem reference_classification :
  classify "https://x/y.png" = Some RemoteUrl /\
  classify "file:///tmp/a.jpg" = Some FileUri /\
  classify "/tmp/a.jpg" = Some AbsolutePath /\
  classify "data:image/png;base64,AAAA" = Some DataUri /\
  classify "ftp://x" = None /\
  forall (env : Env) (W : World),
    hd_error (log (toPart env W "https://x/y.png")) = Some (EvRequestGet "https://x/y.png") /\
    toPart env W "file:///tmp/a.jpg" =
      match fileURLToPath W "file:///tmp/a.jpg" with
      | None => ([], Throw (FileURLToPathThrew "file:///tmp/a.jpg"))
      | Some p =>
          if isAbsPath p then
            bind (call (EvReadFile p) (readFile W p) (ReadFileRejected p))
                 (processImageBuffer env W)
          else ([], Throw (UnsupportedImageFormat "file:///tmp/a.jpg"))
      end /\
    toPart env W "/tmp/a.jpg" =
      bind (call (EvReadFile "/tmp/a.jpg") (readFile W "/tmp/a.jpg")
                 (ReadFileRejected "/tmp/a.jpg"))
           (processImageBuffer env W) /\
    toPart env W "data:image/png;base64,AAAA" = ([], Ok (imagePart "image/png" "AAAA")) /\
    toPart env W "ftp://x" = ([], Throw (UnsupportedImageFormat "ftp://x")) /\
    kindOf (UnsupportedImageFormat "ftp://x") = UnsupportedReferenceKind.
Proof.
  repeat (split; [reflexivity|]).
  intros env W.
  split; [exact (toPart_by_kind env W "https://x/y.png")|].
  split.
  { unfold toPart.
    change (isDataURI "file:///tmp/a.jpg") with false.
    change (isURL "file:///tmp/a.jpg") with false.
    change (isFileURL "file:///tmp/a.jpg") with true.
    cbv iota.
    destruct (fileURLToPath W "file:///tmp/a.jpg") as [p|]; [|reflexivity].
    rewrite bind_lift_ok.
    destruct (isAbsPath p); reflexivity. }
  split.
  { unfold toPart.
    change (isDataURI "/tmp/a.jpg") with false.
    change (isURL "/tmp/a.jpg") with false.
    change (isFileURL "/tmp/a.jpg") with false.
    change (isAbsPath "/tmp/a.jpg") with true.
    cbv iota. rewrite bind_ret. reflexivity. }
  repeat split.
Qed.

(** ** The image normalizer: [processImageBuffer] *)

Lemma truthyString_ne s : s <> EmptyString -> truthyString (Some s) = true.
Proof. destruct s; [congruence | reflexivity]. Qed.

Lemma falsyNumber_ne z : z <> 0 -> falsyNumber (Some z) = false.
Proof. intros H. apply Z.eqb_neq. exact H. Qed.

(** A buffer that the codec cannot read is refused. *)
Lemma processImageBuffer_undecodable env W buffer :
  sharpMetadata W buffer = None ->
  processImageBuffer env W buffer = ([EvSharpMetadata buffer], Throw NotAValidImageFile).
Proof.
  intros H. unfold processImageBuffer, call. rewrite H. reflexivity.
Qed.

(** So is one whose format or size the codec cannot tell. *)
Lemma processImageBuffer_corrupted env W buffer m :
  sharpMetadata W buffer = Some m ->
  negb (truthyString (format m)) || falsyNumber (width m) || falsyNumber (height m) = true ->
  processImageBuffer env W buffer = ([EvSharpMetadata buffer], Throw InvalidOrCorruptedImage).
Proof.
  intros H C. unfold processImageBuffer, call. rewrite H.
  cbn [bind]. rewrite C. reflexivity.
Qed.

(** A valid image goes through the resize step and the final size check. *)
Lemma processImageBuffer_valid env W buffer m fmt w h :
  sharpMetadata W buffer = Some m ->
  validMetadata m fmt w h ->
  processImageBuffer env W buffer =
    bind (call (EvSharpMetadata buffer) (Some m) NotAValidImageFile)
         (fun _ => bind (resizeIfNeeded env W buffer w h)
                        (finalSizeCheck (formatToMime fmt))).
Proof.
  intros H (F & Fne & Wd & Wne & Hg & Hne).
  unfold processImageBuffer. rewrite H.
  unfold call. cbn [bind].
  rewrite F, Wd, Hg.
  rewrite (truthyString_ne _ Fne), (falsyNumber_ne _ Wne), (falsyNumber_ne _ Hne).
  reflexivity.
Qed.

(** The decode gate of [processImageBuffer] cannot be passed: whatever the
    environment, a buffer that is not a decodable image fails with
    [InvalidImageError]. *)
Lemma processImageBuffer_gate env W buffer :
  (sharpMetadata W buffer = None \/
   exists m, sharpMetadata W buffer = Some m /\
     (negb (truthyString (format m)) || falsyNumber (width m) || falsyNumber (height m) = true)) ->
  exists e, processImageBuffer env W buffer = ([EvSharpMetadata buffer], Throw e)
            /\ kindOf e = InvalidImageError.
Proof.
  intros [H | (m & H & C)].
  - exists NotAValidImageFile. split; [apply processImageBuffer_undecodable; exact H | reflexivity].
  - exists InvalidOrCorruptedImage.
    split; [apply (processImageBuffer_corrupted env W buffer m H C) | reflexivity].
Qed.

(** The resize step, case by case. *)
Lemma resize_disabled env W buffer w h :
  (MAX_LONG_EDGE (loadConfig env) = None \/
   exists T, MAX_LONG_EDGE (loadConfig env) = Some T /\ T <= 0) ->
  resizeIfNeeded env W buffer w h = ret buffer.
Proof.
  unfold resizeIfNeeded. intros [-> | (T & -> & HT)]; [reflexivity|].
  destruct (Z.eqb_spec T 0) as [->|N]; [reflexivity|].
  cbn [negb andb].
  destruct (Z.gtb_spec T 0); [lia | reflexivity].
Qed.

Lemma resize_within env W buffer w h T :
  MAX_LONG_EDGE (loadConfig env) = Some T -> 0 < T -> Z.max w h <= T ->
  resizeIfNeeded env W buffer w h = ret buffer.
Proof.
  unfold resizeIfNeeded. intros -> HT Hm.
  destruct (Z.eqb_spec T 0); [lia|]. cbn [negb andb].
  destruct (Z.gtb_spec T 0); [|lia].
  destruct (Z.gtb_spec (Z.max w h) T); [lia | reflexivity].
Qed.

Lemma resize_over env W buffer w h T :
  MAX_LONG_EDGE (loadConfig env) = Some T -> 0 < T -> Z.max w h > T ->
  resizeIfNeeded env W buffer w h =
    call (EvSharpResize T T buffer) (sharpResizeInside W T T buffer) ResizeRejected.
Proof.
  unfold resizeIfNeeded. intros -> HT Hm.
  destruct (Z.eqb_spec T 0); [lia|]. cbn [negb andb].
  destruct (Z.gtb_spec T 0); [|lia].
  destruct (Z.gtb_spec (Z.max w h) T); [reflexivity | lia].
Qed.


Example threshold_zero : MAX_LONG_EDGE (loadConfig noResizeEnv) = Some 0.
Proof. reflexivity. Qed.

Example threshold_not_a_number :
  MAX_LONG_EDGE (loadConfig (fun k => if String.eqb k "VISION_MAX_LONG_EDGE"
                                      then Some "off" else None)) = None.
Proof. reflexivity. Qed.

Lemma finalSizeCheck_over mime processed :
  bufferLength processed > MAX_IMAGE_SIZE_BYTES ->
  finalSizeCheck mime processed =
    ([], Throw (ImageTooLargeAfterProcessing (bufferLength processed))).
Proof.
  intros H. unfold finalSizeCheck.
  destruct (Z.gtb_spec (bufferLength processed) MAX_IMAGE_SIZE_BYTES); [reflexivity | lia].
Qed.

Lemma finalSizeCheck_within mime processed :
  bufferLength processed <= MAX_IMAGE_SIZE_BYTES ->
  finalSizeCheck mime processed = ([], Ok (imagePart mime (Base64.encode processed))).
Proof.
  intros H. unfold finalSizeCheck.
  destruct (Z.gtb_spec (bufferLength processed) MAX_IMAGE_SIZE_BYTES); [lia | reflexivity].
Qed.

Lemma finalSizeCheck_silent mime processed :
  finalSizeCheck mime processed = ([], outcome (finalSizeCheck mime processed)).
Proof. unfold finalSizeCheck. destruct (_ >? _); reflexivity. Qed.

(** A valid image that needs no resize: the codec is asked once, and the
    input buffer itself goes to the final size check. *)
Lemma processImageBuffer_no_resize env W buffer m fmt w h :
  sharpMetadata W buffer = Some m ->
  validMetadata m fmt w h ->
  resizeIfNeeded env W buffer w h = ret buffer ->
  processImageBuffer env W buffer =
    ([EvSharpMetadata buffer], outcome (finalSizeCheck (formatToMime fmt) buffer)).
Proof.
  intros H V R.
  rewrite (processImageBuffer_valid env W buffer m fmt w h H V), R.
  unfold call. cbn [bind]. rewrite bind_ret.
  rewrite finalSizeCheck_silent. reflexivity.
Qed.

(** A valid image that is resized: the codec is asked for the metadata,
    then for the resize in the square box of the threshold, and the buffer
    that comes back goes to the final size check. *)
Lemma processImageBuffer_resize env W buffer m fmt w h T :
  sharpMetadata W buffer = Some m ->
  validMetadata m fmt w h ->
  MAX_LONG_EDGE (loadConfig env) = Some T -> 0 < T -> Z.max w h > T ->
  processImageBuffer env W buffer =
    ([EvSharpMetadata buffer; EvSharpResize T T buffer],
     match sharpResizeInside W T T buffer with
     | Some resized => outcome (finalSizeCheck (formatToMime fmt) resized)
     | None => Throw ResizeRejected
     end).
Proof.
  intros H V E HT Hm.
  rewrite (processImageBuffer_valid env W buffer m fmt w h H V).
  rewrite (resize_over env W buffer w h T E HT Hm).
  unfold call. cbn [bind].
  destruct (sharpResizeInside W T T buffer) as [resized|]; [|reflexivity].
  rewrite finalSizeCheck_silent. reflexivity.
Qed.

(** Whatever [processImageBuffer] returns carries the MIME type of the
    format that the codec found in the bytes. *)
Lemma processImageBuffer_mime env W buffer t part :
  processImageBuffer env W buffer = (t, Ok part) ->
  exists m fmt payload,
    sharpMetadata W buffer = Some m /\ format m = Some fmt /\
    part = imagePart (formatToMime fmt) payload.
Proof.
  unfold processImageBuffer, call.
  destruct (sharpMetadata W buffer) as [m|]; [|discriminate].
  cbn [bind].
  destruct (negb (truthyString (format m)) || falsyNumber (width m) || falsyNumber (height m));
    [discriminate|].
  destruct (format m) as [fmt|] eqn:F; [|discriminate].
  destruct (width m) as [w|]; [|discriminate].
  destruct (height m) as [h|]; [|discriminate].
  destruct (resizeIfNeeded env W buffer w h) as [t1 [processed|e]]; [|discriminate].
  cbn [bind]. unfold finalSizeCheck.
  destruct (bufferLength processed >? MAX_IMAGE_SIZE_BYTES); [discriminate|].
  cbn. intros E. injection E as _ <-.
  exists m, fmt, (Base64.encode processed). auto.
Qed.

Lemma hugeBuffer_length : bufferLength Toy.hugeBuffer = MAX_IMAGE_SIZE_BYTES + 1.
Proof.
  unfold Toy.hugeBuffer, bufferLength.
  rewrite repeat_length. apply Z2Nat.id.
  unfold MAX_IMAGE_SIZE_BYTES, MAX_IMAGE_SIZE_MB. lia.
Qed.




(** C5. A valid image whose longer edge is within the threshold and whose
    bytes are within the size ceiling comes out as the base64 text of its
    own bytes: the payload stands for a buffer of the same bytes and the
    same length, and normalizing that buffer again gives the same part. *)
Theorem compliant_image_unchanged (env : Env) (W : World) (buffer : Buffer)
    (m : Metadata) (fmt : string) (w h : Z) :
  sharpMetadata W buffer = Some m ->
  validMetadata m fmt w h ->
  (forall T, MAX_LONG_EDGE (loadConfig env) = Some T -> 0 < T -> Z.max w h <= T) ->
  bufferLength buffer <= MAX_IMAGE_SIZE_BYTES ->
  let part := imagePart (formatToMime fmt) (Base64.encode buffer) in
  let again := Base64.decode (Base64.encode buffer) in
  processImageBuffer env W buffer = ([EvSharpMetadata buffer], Ok part) /\
  again = buffer /\
  bufferLength again = bufferLength buffer /\
  processImageBuffer env W again = ([EvSharpMetadata again], Ok part).
Proof.
  intros H V Hedge Hsize part again.
  assert (R : resizeIfNeeded env W buffer w h = ret buffer).
  { destruct (MAX_LONG_EDGE (loadConfig env)) as [T|] eqn:E.
    - destruct (Z.ltb_spec 0 T) as [P|N].
      + apply (resize_within env W buffer w h T E P). apply (Hedge T); [reflexivity | exact P].
      + apply resize_disabled. right. exists T. split; [exact E | exact N].
    - apply resize_disabled. left. exact E. }
  assert (P : processImageBuffer env W buffer = ([EvSharpMetadata buffer], Ok part)).
  { rewrite (processImageBuffer_no_resize env W buffer m fmt w h H V R).
    rewrite (finalSizeCheck_within _ _ Hsize). reflexivity. }
  assert (A : again = buffer) by apply Base64Facts.decode_encode.
  repeat split.
  - exact P.
  - exact A.
  - rewrite A. reflexivity.
  - rewrite A. exact P.
Qed.

(** A toy image of 640 by 480 pixels under the default threshold. *)
Lemma compliant_image_unchanged_witness :
  processImageBuffer keyEnv Toy.world (Toy.image 640 480) =
    ([EvSharpMetadata (Toy.image 640 480)], Ok (imagePart "image/png" "iQKAAeA=")) /\
  Base64.decode "iQKAAeA=" = Toy.image 640 480.
Proof.
  assert (V : validMetadata
                {| format := Some "png"; width := Some 640; height := Some 480 |}
                "png" 640 480).
  { repeat split; discriminate. }
  assert (E : forall T, MAX_LONG_EDGE (loadConfig keyEnv) = Some T -> 0 < T ->
                        Z.max 640 480 <= T).
  { intros T HT _. injection HT as <-. discriminate. }
  assert (S : bufferLength (Toy.image 640 480) <= MAX_IMAGE_SIZE_BYTES) by discriminate.
  destruct (compliant_image_unchanged keyEnv Toy.world (Toy.image 640 480) _ "png" 640 480
              eq_refl V E S) as (P & A & _).
  split; [exact P | exact A].
Defined.

(** C6. Once the image is decoded, the buffer that leaves the resize step,
    resized or not, meets the final size check: above the ceiling
    [processImageBuffer] fails with the size error, and only a buffer
    within the ceiling is returned. *)
Theorem final_size_check (env : Env) (W : World) (buffer : Buffer)
    (m : Metadata) (fmt : string) (w h : Z) (t : list Event) (processed : Buffer) :
  sharpMetadata W buffer = Some m ->
  validMetadata m fmt w h ->
  resizeIfNeeded env W buffer w h = (t, Ok processed) ->
  (bufferLength processed > MAX_IMAGE_SIZE_BYTES ->
     processImageBuffer env W buffer =
       ((EvSharpMetadata buffer :: t)%list,
        Throw (ImageTooLargeAfterProcessing (bufferLength processed))) /\
     kindOf (ImageTooLargeAfterProcessing (bufferLength processed)) = SizeLimitError) /\
  (bufferLength processed <= MAX_IMAGE_SIZE_BYTES ->
     processImageBuffer env W buffer =
       ((EvSharpMetadata buffer :: t)%list,
        Ok (imagePart (formatToMime fmt) (Base64.encode processed)))).
Proof.
  intros H V R.
  rewrite (processImageBuffer_valid env W buffer m fmt w h H V), R.
  unfold call. cbn [bind].
  split.
  - intros Hover. rewrite (finalSizeCheck_over _ _ Hover).
    rewrite app_nil_r. split; reflexivity.
  - intros Hin. rewrite (finalSizeCheck_within _ _ Hin).
    rewrite app_nil_r. reflexivity.
Qed.

(** A resize that succeeds and still leaves one byte too many: the size
    error, after the resize. *)
Lemma final_size_check_witness :
  processImageBuffer emptyEnv Toy.bloatWorld [x01] =
    ([EvSharpMetadata [x01]; EvSharpResize 2048 2048 [x01]],
     Throw (ImageTooLargeAfterProcessing (bufferLength Toy.hugeBuffer))) /\
  bufferLength Toy.hugeBuffer = MAX_IMAGE_SIZE_BYTES + 1.
Proof.
  assert (V : validMetadata
                {| format := Some "png"; width := Some 4096; height := Some 4096 |}
                "png" 4096 4096).
  { repeat split; discriminate. }
  assert (L : bufferLength Toy.hugeBuffer > MAX_IMAGE_SIZE_BYTES).
  { rewrite hugeBuffer_length. apply Z.lt_gt, Z.lt_succ_diag_r. }
  destruct (final_size_check emptyEnv Toy.bloatWorld [x01] _ "png" 4096 4096
              [EvSharpResize 2048 2048 [x01]] Toy.hugeBuffer eq_refl V eq_refl)
    as (Over & _).
  destruct (Over L) as (P & _).
  split; [exact P | exact hugeBuffer_length].
Defined.

(** ** Converting a reference: [toPart] *)

(** A path whose file does not decode fails at the gate. *)
Lemma toPart_path_gate env W img buffer :
  classify img = Some AbsolutePath ->
  readFile W img = Some buffer ->
  sharpMetadata W buffer = None ->
  toPart env W img =
    ([EvReadFile img; EvSharpMetadata buffer], Throw NotAValidImageFile).
Proof.
  unfold classify, toPart.
  destruct (isDataURI img); [discriminate|].
  destruct (isURL img); [discriminate|].
  destruct (isFileURL img); [discriminate|].
  destruct (isAbsPath img) eqn:A; [|discriminate].
  intros _ R S. rewrite bind_ret, A. unfold call. rewrite R. cbn [bind].
  rewrite (processImageBuffer_undecodable env W buffer S). reflexivity.
Qed.

Example passwd_is_refused :
  toPart keyEnv Toy.world "/etc/passwd" =
    ([EvReadFile "/etc/passwd"; EvSharpMetadata (list_byte_of_string "root:x:0:0")],
     Throw NotAValidImageFile).
Proof. reflexivity. Qed.

(** A data URI that [toPart] accepts is returned as it stands: the declared
    MIME type and the payload of the reference, and no call to the codec. *)
Lemma toPart_data_uri env W img t part :
  isDataURI img = true ->
  toPart env W img = (t, Ok part) ->
  t = [] /\ exists mime payload,
    execDataURI img = Some (mime, payload) /\ part = imagePart mime payload.
Proof.
  unfold toPart. intros ->.
  destruct (execDataURI img) as [[mime payload]|]; [|discriminate].
  destruct (negb (JsString.startsWith mime "image/")); [discriminate|].
  destruct (JsString.length payload * 3 >? MAX_IMAGE_SIZE_BYTES * 4); [discriminate|].
  intros E. injection E as <- <-. split; [reflexivity|]. eauto.
Qed.

(** The whole data-URI branch: the payload is measured, never decoded. *)
Lemma toPart_data_uri_spec env W img :
  isDataURI img = true ->
  toPart env W img =
    match execDataURI img with
    | None => ([], Throw InvalidDataURIFormat)
    | Some (mime, payload) =>
        if JsString.length payload * 3 >? MAX_IMAGE_SIZE_BYTES * 4
        then ([], Throw (DataURITooLarge (JsString.length payload)))
        else ([], Ok (imagePart mime payload))
    end.
Proof.
  intros D. unfold toPart. rewrite D.
  destruct (execDataURI img) as [[mime payload]|] eqn:E; [|reflexivity].
  rewrite (data_uri_mime_is_image img mime payload D E). reflexivity.
Qed.

(** Every part that [toPart] returns is an image part. *)
Lemma toPart_image env W img t part :
  toPart env W img = (t, Ok part) ->
  exists mime payload, part = imagePart mime payload.
Proof.
  destruct (isDataURI img) eqn:D.
  - intros E. destruct (toPart_data_uri env W img t part D E) as (_ & mime & payload & _ & P).
    eauto.
  - unfold toPart. rewrite D.
    assert (P : forall buffer t' part',
               processImageBuffer env W buffer = (t', Ok part') ->
               exists mime payload, part' = imagePart mime payload).
    { intros buffer t' part' E.
      destruct (processImageBuffer_mime env W buffer t' part' E) as (m & fmt & payload & _ & _ & ->).
      eauto. }
    destruct (isURL img).
    + unfold call. destruct (requestGet W img) as [resp|]; [|discriminate].
      cbn [bind].
      destruct (negb (statusCode resp =? 200)); [discriminate|].
      destruct (negb (JsString.startsWith (orElse (contentType resp) EmptyString) "image/"));
        [discriminate|].
      destruct (arrayBuffer resp) as [buffer|]; [|discriminate].
      rewrite bind_lift_ok.
      destruct (bufferLength buffer >? MAX_IMAGE_SIZE_BYTES); [discriminate|].
      destruct (processImageBuffer env W buffer) as [t' [part'|e]] eqn:E; [|discriminate].
      intros X. injection X as _ <-. apply (P buffer t' part' E).
    + destruct (isFileURL img).
      * destruct (fileURLToPath W img) as [p|]; [|discriminate].
        rewrite bind_lift_ok.
        destruct (isAbsPath p); [|discriminate].
        unfold call. destruct (readFile W p) as [buffer|]; [|discriminate].
        cbn [bind].
        destruct (processImageBuffer env W buffer) as [t' [part'|e]] eqn:E; [|discriminate].
        intros X. injection X as _ <-. apply (P buffer t' part' E).
      * rewrite bind_ret.
        destruct (isAbsPath img); [|discriminate].
        unfold call. destruct (readFile W img) as [buffer|]; [|discriminate].
        cbn [bind].
        destruct (processImageBuffer env W buffer) as [t' [part'|e]] eqn:E; [|discriminate].
        intros X. injection X as _ <-. apply (P buffer t' part' E).
Qed.

(** A reference that is no data URI is converted only through the codec:
    the bytes were decoded, and the MIME type of the part is the one of
    the format found in them. *)
Lemma toPart_decoded env W img t part :
  isDataURI img = false ->
  toPart env W img = (t, Ok part) ->
  exists buffer m fmt payload,
    In (EvSharpMetadata buffer) t /\
    sharpMetadata W buffer = Some m /\ format m = Some fmt /\
    part = imagePart (formatToMime fmt) payload.
Proof.
  intros D. unfold toPart. rewrite D.
  assert (P : forall buffer ev t' part',
             processImageBuffer env W buffer = (t', Ok part') ->
             exists buffer m fmt payload,
               In (EvSharpMetadata buffer) (ev :: t') /\
               sharpMetadata W buffer = Some m /\ format m = Some fmt /\
               part' = imagePart (formatToMime fmt) payload).
  { intros buffer ev t' part' E.
    assert (Hd : In (EvSharpMetadata buffer) t').
    { apply in_hd_error.
      change t' with (log (t', @Ok GeminiPart part')). rewrite <- E.
      apply hd_bind_call. }
    destruct (processImageBuffer_mime env W buffer t' part' E)
      as (m & fmt & payload & M & F & ->).
    exists buffer, m, fmt, payload. repeat split; auto.
    right. exact Hd. }
  destruct (isURL img).
  - unfold call. destruct (requestGet W img) as [resp|]; [|discriminate].
    cbn [bind].
    destruct (negb (statusCode resp =? 200)); [discriminate|].
    destruct (negb (JsString.startsWith (orElse (contentType resp) EmptyString) "image/"));
      [discriminate|].
    destruct (arrayBuffer resp) as [buffer|]; [|discriminate].
    rewrite bind_lift_ok.
    destruct (bufferLength buffer >? MAX_IMAGE_SIZE_BYTES); [discriminate|].
    destruct (processImageBuffer env W buffer) as [t' [part'|e]] eqn:E; [|discriminate].
    intros X. injection X as <- <-. apply (P buffer _ t' part' E).
  - destruct (isFileURL img).
    + destruct (fileURLToPath W img) as [p|]; [|discriminate].
      rewrite bind_lift_ok.
      destruct (isAbsPath p); [|discriminate].
      unfold call. destruct (readFile W p) as [buffer|]; [|discriminate].
      cbn [bind].
      destruct (processImageBuffer env W buffer) as [t' [part'|e]] eqn:E; [|discriminate].
      intros X. injection X as <- <-. apply (P buffer _ t' part' E).
    + rewrite bind_ret.
      destruct (isAbsPath img); [|discriminate].
      unfold call. destruct (readFile W img) as [buffer|]; [|discriminate].
      cbn [bind].
      destruct (processImageBuffer env W buffer) as [t' [part'|e]] eqn:E; [|discriminate].
      intros X. injection X as <- <-. apply (P buffer _ t' part' E).
Qed.

(** C1, at the input where the code fails it. The payload below is the
    base64 text of the five bytes of [hello], which are no image. In every
    world, also one whose codec rejects every buffer, [toPart] returns it
    as an image part and never asks the codec. Every other kind of
    reference is converted only after the codec has accepted its bytes. *)
Theorem data_uri_skips_decode_gate :
  Base64.decode "aGVsbG8=" = list_byte_of_string "hello" /\
  (forall (env : Env) (W : World),
     toPart env W "data:image/png;base64,aGVsbG8=" =
       ([], Ok (imagePart "image/png" "aGVsbG8="))) /\
  sharpMetadata deadWorld (list_byte_of_string "hello") = None /\
  (forall (env : Env) (W : World) (img : string) t part,
     isDataURI img = false ->
     toPart env W img = (t, Ok part) ->
     exists buffer m,
       In (EvSharpMetadata buffer) t /\ sharpMetadata W buffer = Some m).
Proof.
  split; [reflexivity|]. split; [intros; reflexivity|]. split; [reflexivity|].
  intros env W img t part D E.
  destruct (toPart_decoded env W img t part D E) as (buffer & m & _ & _ & I & M & _).
  exists buffer, m. split; assumption.
Qed.

(** C2, at the input where the code fails it. The payload below is the
    base64 text of the eight bytes that open every PNG file, and the
    reference declares [image/gif]. In every world the part carries
    [image/gif], the declared type, where the mapping applied to the
    format of the bytes gives [image/png]. Every other kind of reference
    gets the MIME type that the mapping gives the decoded format. *)
Theorem data_uri_keeps_declared_mime :
  Base64.decode "iVBORw0KGgo=" = [x89; x50; x4e; x47; x0d; x0a; x1a; x0a] /\
  (forall (env : Env) (W : World),
     toPart env W "data:image/gif;base64,iVBORw0KGgo=" =
       ([], Ok (imagePart "image/gif" "iVBORw0KGgo="))) /\
  formatToMime "png" = "image/png" /\
  (forall (env : Env) (W : World) (img : string) t part,
     isDataURI img = false ->
     toPart env W img = (t, Ok part) ->
     exists buffer m fmt payload,
       sharpMetadata W buffer = Some m /\ format m = Some fmt /\
       part = imagePart (formatToMime fmt) payload).
Proof.
  split; [reflexivity|]. split; [intros; reflexivity|]. split; [reflexivity|].
  intros env W img t part D E.
  destruct (toPart_decoded env W img t part D E) as (buffer & m & fmt & payload & _ & M & F & P).
  exists buffer, m, fmt, payload. auto.
Qed.

(** ** Where a POST can come from *)

Lemma in_log_bind {A B} (m : M A) (f : A -> M B) ev :
  In ev (log (bind m f)) ->
  In ev (log m) \/ exists a, outcome m = Ok a /\ In ev (log (f a)).
Proof.
  destruct m as [t [a|e]]; cbn [bind log outcome fst snd].
  - destruct (f a) as [t' r] eqn:E. cbn [fst]. intros H.
    apply in_app_or in H. destruct H as [H|H]; [left; exact H|].
    right. exists a. rewrite E. split; [reflexivity | exact H].
  - intros H. left. exact H.
Qed.

Lemma in_log_tryCatch {A} (m : M A) (h : Error -> M A) ev :
  In ev (log (tryCatch m h)) ->
  In ev (log m) \/ exists e, In ev (log (h e)).
Proof.
  destruct m as [t [a|e]]; cbn [tryCatch log fst].
  - intros H. left. exact H.
  - destruct (h e) as [t' r] eqn:E. cbn [fst]. intros H.
    apply in_app_or in H. destruct H as [H|H]; [left; exact H|].
    right. exists e. rewrite E. exact H.
Qed.

Lemma in_log_call {A} ev0 (r : option A) e ev :
  In ev (log (call ev0 r e)) -> ev = ev0.
Proof. cbn. intros [H|[]]. symmetry. exact H. Qed.

Lemma finalSizeCheck_log mime b : log (finalSizeCheck mime b) = [].
Proof. rewrite finalSizeCheck_silent. reflexivity. Qed.

Lemma resizeIfNeeded_no_post env W buffer w h ev :
  In ev (log (resizeIfNeeded env W buffer w h)) -> ~ isPost ev.
Proof.
  unfold resizeIfNeeded.
  destruct (MAX_LONG_EDGE (loadConfig env)) as [T|]; [|intros []].
  destruct (negb (T =? 0) && (T >? 0)); [|intros []].
  destruct (Z.max w h >? T); [|intros []].
  intros H. apply in_log_call in H. subst ev. intros [].
Qed.

Lemma processImageBuffer_no_post env W buffer ev :
  In ev (log (processImageBuffer env W buffer)) -> ~ isPost ev.
Proof.
  unfold processImageBuffer. intros H.
  apply in_log_bind in H. destruct H as [H | (m & _ & H)].
  - apply in_log_call in H. subst ev. intros [].
  - destruct (negb (truthyString (format m)) || falsyNumber (width m) || falsyNumber (height m));
      [destruct H|].
    destruct (format m) as [fmt|]; [|destruct H].
    destruct (width m) as [w|]; [|destruct H].
    destruct (height m) as [h|]; [|destruct H].
    apply in_log_bind in H. destruct H as [H | (b & _ & H)].
    + apply (resizeIfNeeded_no_post env W buffer w h ev H).
    + rewrite finalSizeCheck_log in H. destruct H.
Qed.

Lemma toPart_no_post env W img ev :
  In ev (log (toPart env W img)) -> ~ isPost ev.
Proof.
  unfold toPart.
  destruct (isDataURI img).
  - destruct (execDataURI img) as [[mime payload]|]; [|intros []].
    destruct (negb (JsString.startsWith mime "image/")); [intros []|].
    destruct (JsString.length payload * 3 >? MAX_IMAGE_SIZE_BYTES * 4); intros [].
  - destruct (isURL img).
    + intros H. apply in_log_bind in H. destruct H as [H | (resp & _ & H)].
      * apply in_log_call in H. subst ev. intros [].
      * destruct (negb (statusCode resp =? 200)); [destruct H|].
        destruct (negb (JsString.startsWith (orElse (contentType resp) EmptyString) "image/"));
          [destruct H|].
        apply in_log_bind in H. destruct H as [H | (buffer & _ & H)].
        -- destruct (arrayBuffer resp); destruct H.
        -- destruct (bufferLength buffer >? MAX_IMAGE_SIZE_BYTES); [destruct H|].
           apply (processImageBuffer_no_post env W buffer ev H).
    + intros H. apply in_log_bind in H. destruct H as [H | (p & _ & H)].
      * destruct (isFileURL img); [|destruct H].
        destruct (fileURLToPath W img); destruct H.
      * destruct (isAbsPath p); [|destruct H].
        apply in_log_bind in H. destruct H as [H | (buffer & _ & H)].
        -- apply in_log_call in H. subst ev. intros [].
        -- apply (processImageBuffer_no_post env W buffer ev H).
Qed.

Lemma convertAll_no_post env W imgs acc ev :
  In ev (log (convertAll env W imgs acc)) -> ~ isPost ev.
Proof.
  revert acc. induction imgs as [|img rest IH]; intros acc; cbn [convertAll].
  - intros [].
  - intros H. apply in_log_bind in H. destruct H as [H | (p & _ & H)].
    + apply (toPart_no_post env W img ev H).
    + apply (IH _ H).
Qed.

(** The loop of the handler keeps the order: the parts come out in the
    order of the references, after those already pushed. *)
Lemma convertAll_ok env W imgs ps acc :
  Forall2 (fun img p => outcome (toPart env W img) = Ok p) imgs ps ->
  outcome (convertAll env W imgs acc) = Ok (acc ++ ps)%list.
Proof.
  intros F. revert acc. induction F as [|img p imgs ps Hp F IH]; intros acc.
  - cbn. rewrite app_nil_r. reflexivity.
  - cbn [convertAll].
    rewrite (outcome_bind _ _ p Hp), IH, <- app_assoc. reflexivity.
Qed.

Lemma tryCmd_no_post W cmd ev : In ev (log (tryCmd W cmd)) -> ~ isPost ev.
Proof.
  unfold tryCmd. intros H. apply in_log_bind in H. destruct H as [H | (out & _ & H)].
  - apply in_log_call in H. subst ev. intros [].
  - destruct (JsString.isEmpty (JsString.trim out)); destruct H.
Qed.

Lemma getVertexAccessToken_no_post env W ev :
  In ev (log (getVertexAccessToken env W)) -> ~ isPost ev.
Proof.
  unfold getVertexAccessToken.
  destruct (truthyString (env "GOOGLE_OAUTH_ACCESS_TOKEN")
            && (JsString.length (JsString.trim (orElse (env "GOOGLE_OAUTH_ACCESS_TOKEN") EmptyString)) >? 0));
    [intros []|].
  intros H. apply in_log_bind in H. destruct H as [H | (tok & _ & H)].
  - apply in_log_tryCatch in H. destruct H as [H | (e & [])].
    apply in_log_bind in H. destruct H as [H | (t & _ & H)].
    + apply in_log_call in H. subst ev. intros [].
    + destruct t as [t|]; [|destruct H].
      destruct (negb (JsString.isEmpty t) && (JsString.length (JsString.trim t) >? 0));
        destruct H.
  - destruct tok as [tok|]; [destruct H|].
    apply in_log_tryCatch in H. destruct H as [H | (e & H)].
    + apply (tryCmd_no_post W _ ev H).
    + apply in_log_tryCatch in H. destruct H as [H | (e' & [])].
      apply (tryCmd_no_post W _ ev H).
Qed.

Lemma readResponse_log provider response : log (readResponse provider response) = [].
Proof.
  unfold readResponse.
  destruct (postJson response) as [json|]; [|destruct (postText response); reflexivity].
  destruct (negb (postStatusCode response =? 200)); [|reflexivity].
  unfold liftResult. destruct (apiErrorMessage json); reflexivity.
Qed.


Lemma post_of_call {A B} url0 headers0 parts0 (r : option A) e (f : A -> M B)
    url headers body :
  (forall a, log (f a) = []) ->
  In (EvRequestPost url headers body)
     (log (bind (call (EvRequestPost url0 headers0 parts0) r e) f)) ->
  url = url0 /\ headers = headers0 /\ body = parts0.
Proof.
  intros F H. apply in_log_bind in H. destruct H as [H | (a & _ & H)].
  - apply in_log_call in H. injection H as -> -> ->. auto.
  - rewrite F in H. destruct H.
Qed.

Lemma outcome_bind_call {A B} ev (r : option A) e (f : A -> M B) :
  outcome (bind (call ev r e) f) =
    match r with
    | Some a => outcome (f a)
    | None => Throw e
    end.
Proof.
  unfold call, bind. destruct r as [a|]; [|reflexivity].
  destruct (f a); reflexivity.
Qed.

(** A POST in the log of [callGemini] carries the parts that [callGemini]
    was given, and its response decides the result. *)
Lemma callGemini_sent env W parts url headers body :
  In (EvRequestPost url headers body) (log (callGemini env W parts)) ->
  body = parts /\
  exists provider,
    outcome (callGemini env W parts) =
      match requestPost W url headers parts with
      | Some response => outcome (readResponse provider response)
      | None => Throw (RequestRejected url)
      end.
Proof.
  unfold callGemini.
  destruct (String.eqb (PROVIDER (loadConfig env)) "vertex").
  - unfold callGeminiVertex.
    destruct (negb (truthyString (env "GOOGLE_CLOUD_PROJECT"))); [intros []|].
    intros H. apply in_log_bind in H. destruct H as [H | (tok & Htok & H)].
    + exfalso. apply (getVertexAccessToken_no_post env W _ H). exact I.
    + rewrite (outcome_bind _ _ tok Htok).
      pose proof (post_of_call _ _ _ _ _ _ _ _ _ (readResponse_log "Vertex") H) as (-> & -> & ->).
      split; [reflexivity|]. exists "Vertex". apply outcome_bind_call.
  - unfold callGeminiAIStudio.
    destruct (negb (truthyString (API_KEY (loadConfig env)))); [intros []|].
    intros H.
    pose proof (post_of_call _ _ _ _ _ _ _ _ _ (readResponse_log "Gemini") H) as (-> & -> & ->).
    split; [reflexivity|]. exists "Gemini". apply outcome_bind_call.
Qed.

(** With its configuration in place, [callGemini] does send. *)
Lemma callGemini_sends env W parts :
  providerReady env W ->
  exists url headers, In (EvRequestPost url headers parts) (log (callGemini env W parts)).
Proof.
  unfold providerReady, callGemini.
  destruct (String.eqb (PROVIDER (loadConfig env)) "vertex").
  - intros (P & token & T). unfold callGeminiVertex. rewrite P. cbn [negb].
    rewrite (log_bind _ _ token T).
    match goal with
    | |- context [call (EvRequestPost ?u ?h parts) ?r ?e] =>
        exists u, h; apply in_or_app; right;
        apply in_hd_error, (hd_bind_call (EvRequestPost u h parts) r e (readResponse "Vertex"))
    end.
  - intros K. unfold callGeminiAIStudio. rewrite K. cbn [negb].
    match goal with
    | |- context [call (EvRequestPost ?u ?h parts) ?r ?e] =>
        exists u, h;
        apply in_hd_error, (hd_bind_call (EvRequestPost u h parts) r e (readResponse "Gemini"))
    end.
Qed.

(** ** The handler *)

(** C3. When the references of the list, between one and ten, all convert,
    every request sent to the provider carries their parts, which are
    image parts, in the order of the list, and then one text part that
    holds the instruction: one part more than there are images. With a
    non-blank instruction and the provider's configuration in place such
    a request is sent. *)
Theorem request_parts_in_order (env : Env) (W : World)
    (imgs : list string) (instr : string) (ps : list GeminiPart) :
  (1 <= List.length imgs <= 10)%nat ->
  Forall2 (fun img p => outcome (toPart env W img) = Ok p) imgs ps ->
  let run := callTool env W "vision.analyze"
               {| images := Some (ImagesArray imgs); instruction := Some instr |} in
  (forall url headers body,
     In (EvRequestPost url headers body) (log run) ->
     body = (ps ++ [textPart instr])%list /\
     List.length body = S (List.length imgs) /\
     Forall (fun p => exists mime payload, p = imagePart mime payload) ps) /\
  (blankInstruction (Some instr) = false ->
   providerReady env W ->
   exists url headers,
     In (EvRequestPost url headers (ps ++ [textPart instr])%list) (log run)).
Proof.
  intros Hn F run.
  assert (Hlen : List.length ps = List.length imgs).
  { clear - F. induction F; cbn; congruence. }
  assert (Himg : Forall (fun p => exists mime payload, p = imagePart mime payload) ps).
  { clear - F. induction F as [|img p imgs ps Hp F IH]; constructor; [|exact IH].
    destruct (toPart env W img) as [t r] eqn:E. cbn in Hp. subst r.
    apply (toPart_image env W img t p E). }
  assert (Hconv : outcome (convertAll env W imgs []) = Ok ps).
  { apply (convertAll_ok env W imgs ps [] F). }
  assert (Hrun : blankInstruction (Some instr) = false ->
                 run = bind (convertAll env W imgs [])
                         (fun parts =>
                            bind (callGemini env W (parts ++ [textPart instr])%list)
                              (fun text =>
                                 ret {| content := [ {| Content.type := "text";
                                                        Content.text := text |} ] |}))).
  { intros B. subst run. unfold callTool.
    change (negb (String.eqb "vision.analyze" "vision.analyze")) with false.
    cbn [images instruction falsyImages]. rewrite B. cbv iota.
    destruct (Z.eqb_spec (Z.of_nat (List.length imgs)) 0); [lia|].
    destruct (Z.gtb_spec (Z.of_nat (List.length imgs)) MAX_IMAGES);
      [unfold MAX_IMAGES in *; lia | reflexivity]. }
  split.
  - intros url headers body H.
    destruct (blankInstruction (Some instr)) eqn:B.
    + exfalso. subst run. unfold callTool in H.
      change (negb (String.eqb "vision.analyze" "vision.analyze")) with false in H.
      cbn [images instruction falsyImages] in H. rewrite B in H. destruct H.
    + rewrite (Hrun eq_refl) in H.
      apply in_log_bind in H. destruct H as [H | (parts & Hparts & H)].
      * exfalso. apply (convertAll_no_post env W imgs [] _ H). exact I.
      * rewrite Hconv in Hparts. injection Hparts as <-.
        apply in_log_bind in H. destruct H as [H | (text & _ & [])].
        apply callGemini_sent in H. destruct H as (-> & _).
        repeat split; [|exact Himg].
        rewrite length_app, Hlen. cbn. lia.
  - intros B K. rewrite (Hrun B).
    destruct (callGemini_sends env W (ps ++ [textPart instr])%list K)
      as (url & headers & H).
    exists url, headers.
    rewrite (log_bind _ _ ps Hconv). apply in_or_app. right.
    destruct (callGemini env W (ps ++ [textPart instr])%list) as [t [text|e]];
      cbn in *; [rewrite app_nil_r|]; exact H.
Qed.

(** Three images, by URL, by path and inline, and the instruction
    [describe]: the request holds four parts, the images first. *)
Lemma request_parts_in_order_witness :
  exists url headers,
    In (EvRequestPost url headers
          [ imagePart "image/png" "iQKAAeA=";
            imagePart "image/png" "iQKAAeA=";
            imagePart "image/png" "AAAA";
            textPart "describe" ])
       (log (callTool keyEnv Toy.world "vision.analyze"
               {| images := Some (ImagesArray [ "https://x/y.png"; "/tmp/a.jpg";
                                                "data:image/png;base64,AAAA" ]);
                  instruction := Some "describe" |})).
Proof.
  assert (N : (1 <= List.length [ "https://x/y.png"; "/tmp/a.jpg";
                                  "data:image/png;base64,AAAA" ] <= 10)%nat).
  { cbn. lia. }
  assert (F : Forall2 (fun img p => outcome (toPart keyEnv Toy.world img) = Ok p)
                [ "https://x/y.png"; "/tmp/a.jpg"; "data:image/png;base64,AAAA" ]
                [ imagePart "image/png" "iQKAAeA=";
                  imagePart "image/png" "iQKAAeA=";
                  imagePart "image/png" "AAAA" ]).
  { repeat constructor. }
  destruct (request_parts_in_order keyEnv Toy.world _ "describe" _ N F) as (_ & S).
  apply S; reflexivity.
Defined.

Example three_images_run :
  callTool keyEnv Toy.world "vision.analyze"
    {| images := Some (ImagesArray [ "https://x/y.png"; "/tmp/a.jpg";
                                     "data:image/png;base64,AAAA" ]);
       instruction := Some "describe" |}
  = ([ EvRequestGet "https://x/y.png"; EvSharpMetadata (Toy.image 640 480);
       EvReadFile "/tmp/a.jpg"; EvSharpMetadata (Toy.image 640 480);
       EvRequestPost
         "https://generativelanguage.googleapis.com/v1beta/models/gemini-flash-lite-latest:generateContent?key=secret"
         [("Content-Type", "application/json")]
         [ imagePart "image/png" "iQKAAeA=";
           imagePart "image/png" "iQKAAeA=";
           imagePart "image/png" "AAAA";
           textPart "describe" ] ],
     Ok {| content := [ {| Content.type := "text"; Content.text := "ok" |} ] |}).
Proof. reflexivity. Qed.

(** The same request through Vertex: the token comes from the last step of
    the chain, trimmed, and the model name loses its prefix. *)
Example vertex_run :
  callTool vertexEnv Toy.gcloudWorld "vision.analyze"
    {| images := Some (ImagesString "data:image/png;base64,AAAA");
       instruction := Some "describe" |}
  = ([ EvAuthLibrary;
       EvExec "gcloud auth application-default print-access-token";
       EvExec "gcloud auth print-access-token";
       EvRequestPost
         "https://us-central1-aiplatform.googleapis.com/v1/projects/demo/locations/us-central1/publishers/google/models/gemini-flash-lite-latest:generateContent"
         [("Content-Type", "application/json"); ("Authorization", "Bearer t0k")]
         [ imagePart "image/png" "AAAA"; textPart "describe" ] ],
     Ok {| content := [ {| Content.type := "text"; Content.text := "ok" |} ] |}).
Proof. reflexivity. Qed.




(** C10, as amended. A single string that is not empty is handled exactly
    as the list of that one string: the same calls, the same result, the
    same error. *)
Theorem single_string_as_singleton (env : Env) (W : World) (name : string)
    (s : string) (instr : option string) :
  s <> EmptyString ->
  callTool env W name {| images := Some (ImagesString s); instruction := instr |} =
  callTool env W name {| images := Some (ImagesArray [s]); instruction := instr |}.
Proof.
  intros Hs. unfold callTool. cbn [images instruction falsyImages].
  destruct s as [|c r]; [contradiction|]. reflexivity.
Qed.

Lemma single_string_as_singleton_witness :
  callTool keyEnv Toy.world "vision.analyze"
    {| images := Some (ImagesString "/tmp/a.jpg"); instruction := Some "describe" |} =
  callTool keyEnv Toy.world "vision.analyze"
    {| images := Some (ImagesArray ["/tmp/a.jpg"]); instruction := Some "describe" |}.
Proof.
  apply (single_string_as_singleton keyEnv Toy.world "vision.analyze" "/tmp/a.jpg"
           (Some "describe")).
  discriminate.
Defined.

(** The claim of C10 is about every string. For the empty string the two
    calls end in different errors: as a single string it counts as a
    missing parameter, inside a list it reaches [toPart] and is refused as
    a reference. *)
Lemma empty_string_differs :
  callTool keyEnv Toy.world "vision.analyze"
    {| images := Some (ImagesString EmptyString); instruction := Some "describe" |}
  = ([], Throw MissingImages) /\
  callTool keyEnv Toy.world "vision.analyze"
    {| images := Some (ImagesArray [EmptyString]); instruction := Some "describe" |}
  = ([], Throw (UnsupportedImageFormat EmptyString)) /\
  callTool keyEnv Toy.world "vision.analyze"
    {| images := Some (ImagesString EmptyString); instruction := Some "describe" |}
  <> callTool keyEnv Toy.world "vision.analyze"
    {| images := Some (ImagesArray [EmptyString]); instruction := Some "describe" |}.
Proof.
  split; [reflexivity|]. split; [reflexivity|]. discriminate.
Qed.

(** ** The answer of the provider *)

Example extract_two_parts :
  extractText
    (JObject [("candidates",
               JArray [JObject [("content",
                 JObject [("parts", JArray [ JObject [("text", JString "a")];
                                             JObject [("inlineData", JObject [])];
                                             JObject [("text", JString "b")] ])])]])])
  = Ok "ab".
Proof. reflexivity. Qed.

(** Outside the shape that the provider documents the extraction can
    throw: reading [candidates] of [null], or mapping over parts that are
    no array. *)
Example extract_null_body : extractText JNull = Throw JsTypeError.
Proof. reflexivity. Qed.

Example extract_parts_not_array :
  extractText
    (JObject [("candidates",
               JArray [JObject [("content", JObject [("parts", JString "x")])]])])
  = Throw JsTypeError.
Proof. reflexivity. Qed.

Lemma extractText_no_candidates fields :
  Js.nullish (lookup "candidates" fields) = true ->
  extractText (JObject fields) = Ok EmptyString.
Proof.
  unfold extractText. cbn [Js.getProp].
  destruct (lookup "candidates" fields) as [[]|]; cbn; congruence.
Qed.

Lemma extractText_first_candidate fields candidate rest :
  lookup "candidates" fields = Some (JArray (candidate :: rest)) ->
  extractText (JObject fields) =
    match contentParts candidate with
    | None | Some JNull => Ok EmptyString
    | Some (JArray parts) =>
        match Js.mapText parts with
        | Throw e => Throw e
        | Ok texts => Js.joinEmpty texts
        end
    | Some _ => Throw JsTypeError
    end.
Proof.
  intros C. unfold extractText, contentParts. cbn [Js.getProp]. rewrite C.
  cbn [Js.index0 nth_error].
  destruct candidate as [| b | n | s | items | cfields]; try reflexivity.
  cbn [Js.getProp].
  destruct (lookup "content" cfields) as [[]|]; reflexivity.
Qed.

Lemma append_empty_r (s : string) : s ++ EmptyString = s.
Proof. induction s as [|c r IH]; cbn; [reflexivity | rewrite IH; reflexivity]. Qed.







(** * Further properties of the code *)

(** ** The detection helpers *)

Lemma lowerChar_idempotent c : JsString.lowerChar (JsString.lowerChar c) = JsString.lowerChar c.
Proof. destruct c as [[] [] [] [] [] [] [] []]; reflexivity. Qed.

Lemma startsWithIgnoreCase_lower s p :
  JsString.startsWithIgnoreCase (JsString.toLowerCase s) p =
  JsString.startsWithIgnoreCase s p.
Proof.
  revert s. induction p as [|a p IH]; intros [|b s]; cbn; try reflexivity.
  rewrite lowerChar_idempotent, IH. reflexivity.
Qed.

(** What each test tells about the first two code units. *)
Lemma startsWithIgnoreCase_two s a b p :
  JsString.startsWithIgnoreCase s (String a (String b p)) = true ->
  exists c d r, s = String c (String d r) /\
    JsString.lowerChar c = JsString.lowerChar a /\
    JsString.lowerChar d = JsString.lowerChar b.
Proof.
  destruct s as [|c [|d r]]; cbn [JsString.startsWithIgnoreCase].
  - discriminate.
  - rewrite andb_false_r. discriminate.
  - intros H. apply andb_true_iff in H. destruct H as [H1 H2].
    apply andb_true_iff in H2. destruct H2 as [H2 _].
    apply Ascii.eqb_eq in H1. apply Ascii.eqb_eq in H2.
    exists c, d, r. auto.
Qed.

Lemma isURL_two s :
  isURL s = true ->
  exists c d r, s = String c (String d r) /\
    JsString.lowerChar c = "h"%char /\ JsString.lowerChar d = "t"%char.
Proof.
  unfold isURL. intros H. apply orb_true_iff in H.
  destruct H as [H|H]; apply startsWithIgnoreCase_two in H; exact H.
Qed.

Lemma isFileURL_two s :
  isFileURL s = true ->
  exists c d r, s = String c (String d r) /\
    JsString.lowerChar c = "f"%char /\ JsString.lowerChar d = "i"%char.
Proof. unfold isFileURL. intros H. apply startsWithIgnoreCase_two in H. exact H. Qed.

Lemma isDataURI_two s :
  isDataURI s = true -> exists r, s = String "d" (String "a" r).
Proof.
  intros H. apply isDataURI_spec in H. destruct H as (sub & rest & -> & _).
  eexists. reflexivity.
Qed.

Lemma isAbsPath_two c d r :
  isAbsPath (String c (String d r)) = true -> c = "/"%char \/ d = ":"%char.
Proof.
  unfold isAbsPath, JsString.startsWith. cbn [String.prefix].
  destruct (Ascii.ascii_dec "/" c) as [<-|N]; [auto|].
  cbn [orb]. destruct r as [|b r]; [discriminate|].
  intros H. apply andb_true_iff in H. destruct H as [H _].
  apply andb_true_iff in H. destruct H as [_ H].
  apply Ascii.eqb_eq in H. auto.
Qed.

(** X1. The four tests on a reference exclude one another: no string is
    at once a remote URL, a file URL, a data URI or an absolute path, so
    the order in which [toPart] tries them decides nothing. *)
Theorem reference_tests_exclusive (s : string) :
  (isURL s = true ->
     isFileURL s = false /\ isDataURI s = false /\ isAbsPath s = false) /\
  (isFileURL s = true -> isDataURI s = false /\ isAbsPath s = false) /\
  (isDataURI s = true -> isAbsPath s = false).
Proof.
  split; [|split].
  - intros U. destruct (isURL_two s U) as (c & d & r & -> & Hc & Hd).
    split; [|split].
    + unfold isFileURL. cbn [JsString.startsWithIgnoreCase]. rewrite Hc. reflexivity.
    + destruct (isDataURI (String c (String d r))) eqn:D; [|reflexivity].
      apply isDataURI_two in D. destruct D as (r' & E). injection E as -> _ _.
      discriminate Hc.
    + destruct (isAbsPath (String c (String d r))) eqn:A; [|reflexivity].
      apply isAbsPath_two in A. destruct A as [-> | ->]; discriminate.
  - intros F. destruct (isFileURL_two s F) as (c & d & r & -> & Hc & Hd).
    split.
    + destruct (isDataURI (String c (String d r))) eqn:D; [|reflexivity].
      apply isDataURI_two in D. destruct D as (r' & E). injection E as -> _ _.
      discriminate Hc.
    + destruct (isAbsPath (String c (String d r))) eqn:A; [|reflexivity].
      apply isAbsPath_two in A. destruct A as [-> | ->]; discriminate.
  - intros D. apply isDataURI_two in D. destruct D as (r & ->).
    destruct (isAbsPath (String "d" (String "a" r))) eqn:A; [|reflexivity].
    apply isAbsPath_two in A. destruct A as [A | A]; discriminate A.
Qed.

(** X2. The tests for remote and file URLs read the scheme without regard
    to the case of its letters: two references that differ only in the
    case of ASCII letters get the same answers. *)
Theorem scheme_tests_ignore_case (s s' : string) :
  JsString.toLowerCase s = JsString.toLowerCase s' ->
  isURL s = isURL s' /\ isFileURL s = isFileURL s'.
Proof.
  intros E. unfold isURL, isFileURL.
  rewrite <- (startsWithIgnoreCase_lower s "http://"),
          <- (startsWithIgnoreCase_lower s "https://"),
          <- (startsWithIgnoreCase_lower s "file://"), E,
          !startsWithIgnoreCase_lower.
  split; reflexivity.
Qed.

Lemma scheme_tests_ignore_case_witness :
  isURL "HTTPS://Example.com/A.png" = isURL "https://example.com/a.PNG" /\
  isFileURL "HTTPS://Example.com/A.png" = isFileURL "https://example.com/a.PNG".
Proof.
  apply (scheme_tests_ignore_case "HTTPS://Example.com/A.png" "https://example.com/a.PNG").
  reflexivity.
Defined.

(** ** [formatToMime] and [normalizeModelName] *)

Lemma lookup_in {A} k (m : list (string * A)) v :
  lookup k m = Some v -> In v (map snd m).
Proof.
  induction m as [|[k' v'] m IH]; cbn; [discriminate|].
  destruct (String.eqb k k'); [intros E; injection E as ->; auto | auto].
Qed.

Lemma toLowerCase_idempotent s :
  JsString.toLowerCase (JsString.toLowerCase s) = JsString.toLowerCase s.
Proof.
  induction s as [|c s IH]; cbn; [reflexivity|].
  rewrite lowerChar_idempotent, IH. reflexivity.
Qed.

Lemma formatToMime_in_table fmt : In (formatToMime fmt) imageTypes.
Proof.
  unfold formatToMime, imageTypes.
  destruct (lookup (JsString.toLowerCase fmt) mimeMap) as [v|] eqn:L.
  - apply lookup_in in L. cbn in L.
    repeat (destruct L as [L|L]; [subst v; cbn; tauto|]). destruct L.
  - cbn. tauto.
Qed.

Lemma imageTypes_shape mime :
  In mime imageTypes ->
  JsString.startsWith mime "image/" = true /\
  mime <> EmptyString /\ JsString.forallb notSemicolon mime = true.
Proof.
  unfold imageTypes. cbn [In].
  intros H. repeat (destruct H as [<-|H]; [repeat split; discriminate|]). destruct H.
Qed.

(** X3. [formatToMime] is closed on the keys of its table: for a format
    whose lower-case form is no name that the object literal inherits,
    the result is one of eight image types, and the case of the letters
    of the format is of no account. *)
Theorem formatToMime_closed (fmt : string) :
  inheritedKey (JsString.toLowerCase fmt) = false ->
  In (formatToMime fmt) imageTypes /\
  formatToMime (JsString.toLowerCase fmt) = formatToMime fmt.
Proof.
  intros _. split; [apply formatToMime_in_table|].
  unfold formatToMime. rewrite toLowerCase_idempotent. reflexivity.
Qed.

Lemma formatToMime_closed_witness :
  In (formatToMime "JPEG") imageTypes /\
  formatToMime (JsString.toLowerCase "JPEG") = formatToMime "JPEG".
Proof. apply (formatToMime_closed "JPEG"). reflexivity. Defined.

(** X4. For AI Studio the normalized model name always carries the prefix
    [models/] and normalizing it again changes nothing; for Vertex one
    prefix is taken off, and it makes no difference whether the name went
    through the AI Studio form first. *)
Theorem normalizeModelName_forms (model : string) :
  JsString.startsWith (normalizeModelName model "ais") "models/" = true /\
  normalizeModelName (normalizeModelName model "ais") "ais" = normalizeModelName model "ais" /\
  normalizeModelName ("models/" ++ model) "vertex" = model /\
  normalizeModelName (normalizeModelName model "ais") "vertex" = normalizeModelName model "vertex".
Proof.
  assert (A : JsString.startsWith (normalizeModelName model "ais") "models/" = true).
  { unfold normalizeModelName. change (String.eqb "ais" "vertex") with false. cbv iota.
    destruct (JsString.startsWith model "models/") eqn:S; [exact S|].
    apply JsStringFacts.startsWith_spec. exists model. reflexivity. }
  assert (V : normalizeModelName ("models/" ++ model) "vertex" = model).
  { unfold normalizeModelName. change (String.eqb "vertex" "vertex") with true. cbv iota.
    rewrite (proj2 (JsStringFacts.stripPrefix_spec "models/" _ model) eq_refl).
    reflexivity. }
  split; [exact A|]. split; [|split; [exact V|]].
  - unfold normalizeModelName at 1. change (String.eqb "ais" "vertex") with false.
    cbv iota. rewrite A. reflexivity.
  - unfold normalizeModelName at 2. change (String.eqb "ais" "vertex") with false.
    cbv iota.
    destruct (JsString.startsWith model "models/") eqn:S; [reflexivity|].
    rewrite V. unfold normalizeModelName.
    change (String.eqb "vertex" "vertex") with true. cbv iota.
    destruct (JsString.stripPrefix "models/" model) as [r|] eqn:P; [|reflexivity].
    apply JsStringFacts.stripPrefix_spec in P.
    assert (X : JsString.startsWith model "models/" = true)
      by (apply JsStringFacts.startsWith_spec; exists r; exact P).
    congruence.
Qed.

(** ** [processImageBuffer], call by call *)

(** Every way [processImageBuffer] can end: the calls it made, and the
    error or the buffer behind the part. *)
Lemma processImageBuffer_cases env W buffer :
  let run := processImageBuffer env W buffer in
  (log run = [EvSharpMetadata buffer] /\
   (outcome run = Throw NotAValidImageFile \/
    outcome run = Throw InvalidOrCorruptedImage \/
    (bufferLength buffer > MAX_IMAGE_SIZE_BYTES /\
     outcome run = Throw (ImageTooLargeAfterProcessing (bufferLength buffer))) \/
    exists fmt, bufferLength buffer <= MAX_IMAGE_SIZE_BYTES /\
      outcome run = Ok (imagePart (formatToMime fmt) (Base64.encode buffer)))) \/
  (exists T, MAX_LONG_EDGE (loadConfig env) = Some T /\ 0 < T /\
     log run = [EvSharpMetadata buffer; EvSharpResize T T buffer] /\
     (outcome run = Throw ResizeRejected \/
      exists resized, sharpResizeInside W T T buffer = Some resized /\
        ((bufferLength resized > MAX_IMAGE_SIZE_BYTES /\
          outcome run = Throw (ImageTooLargeAfterProcessing (bufferLength resized))) \/
         exists fmt, bufferLength resized <= MAX_IMAGE_SIZE_BYTES /\
           outcome run = Ok (imagePart (formatToMime fmt) (Base64.encode resized))))).
Proof.
  intros run. subst run.
  destruct (sharpMetadata W buffer) as [m|] eqn:M.
  2:{ left. rewrite (processImageBuffer_undecodable env W buffer M). cbn. auto. }
  destruct (negb (truthyString (format m)) || falsyNumber (width m) || falsyNumber (height m))
    eqn:C.
  { left. rewrite (processImageBuffer_corrupted env W buffer m M C). cbn. auto. }
  apply orb_false_iff in C. destruct C as [C Hh].
  apply orb_false_iff in C. destruct C as [Hf Hw].
  apply negb_false_iff in Hf.
  destruct (format m) as [fmt|] eqn:F; [|discriminate Hf].
  destruct (width m) as [w|] eqn:Wd; [|discriminate Hw].
  destruct (height m) as [h|] eqn:Hg; [|discriminate Hh].
  assert (V : validMetadata m fmt w h).
  { repeat split; auto.
    - intros ->. discriminate Hf.
    - intros ->. discriminate Hw.
    - intros ->. discriminate Hh. }
  assert (Fin : forall b,
            (bufferLength b > MAX_IMAGE_SIZE_BYTES /\
             outcome (finalSizeCheck (formatToMime fmt) b)
               = Throw (ImageTooLargeAfterProcessing (bufferLength b))) \/
            exists fmt', bufferLength b <= MAX_IMAGE_SIZE_BYTES /\
              outcome (finalSizeCheck (formatToMime fmt) b)
                = Ok (imagePart (formatToMime fmt') (Base64.encode b))).
  { intros b. destruct (Z.gtb_spec (bufferLength b) MAX_IMAGE_SIZE_BYTES) as [G|L].
    - left. split; [lia|]. rewrite finalSizeCheck_over by lia. reflexivity.
    - right. exists fmt. split; [exact L|]. rewrite finalSizeCheck_within by exact L.
      reflexivity. }
  destruct (MAX_LONG_EDGE (loadConfig env)) as [T|] eqn:E.
  - destruct (Z.ltb_spec 0 T) as [P|N].
    + destruct (Z.gtb_spec (Z.max w h) T) as [G|L].
      * right. exists T. split; [reflexivity|]. split; [exact P|].
        rewrite (processImageBuffer_resize env W buffer m fmt w h T M V E P ltac:(lia)).
        split; [reflexivity|]. cbn [outcome snd].
        destruct (sharpResizeInside W T T buffer) as [resized|]; [|left; reflexivity].
        right. exists resized. split; [reflexivity|]. apply Fin.
      * left.
        rewrite (processImageBuffer_no_resize env W buffer m fmt w h M V
                   (resize_within env W buffer w h T E P L)).
        split; [reflexivity|]. cbn [outcome snd].
        destruct (Fin buffer) as [X|X]; auto.
    + left.
      rewrite (processImageBuffer_no_resize env W buffer m fmt w h M V
                 (resize_disabled env W buffer w h
                    (or_intror (ex_intro _ T (conj E N))))).
      split; [reflexivity|]. cbn [outcome snd].
      destruct (Fin buffer) as [X|X]; auto.
  - left.
    rewrite (processImageBuffer_no_resize env W buffer m fmt w h M V
               (resize_disabled env W buffer w h (or_introl E))).
    split; [reflexivity|]. cbn [outcome snd].
    destruct (Fin buffer) as [X|X]; auto.
Qed.

Lemma processImageBuffer_ok_shape env W buffer t part :
  processImageBuffer env W buffer = (t, Ok part) ->
  exists fmt b,
    bufferLength b <= MAX_IMAGE_SIZE_BYTES /\
    part = imagePart (formatToMime fmt) (Base64.encode b).
Proof.
  intros E.
  destruct (processImageBuffer_cases env W buffer) as [(_ & O) | (T & _ & _ & _ & O)];
    rewrite E in O; cbn [outcome snd] in O.
  - destruct O as [O | [O | [(_ & O) | (fmt & L & O)]]]; try discriminate O.
    injection O as ->. eauto.
  - destruct O as [O | (resized & _ & [(_ & O) | (fmt & L & O)])]; try discriminate O.
    injection O as ->. eauto.
Qed.


(** X6. A part that [processImageBuffer] returns is an image part whose
    MIME type is one of the eight of the table and whose payload stands for
    at most 18 MiB of bytes. *)
Theorem normalized_part_within_ceiling (env : Env) (W : World) (buffer : Buffer)
    (t : list Event) (part : GeminiPart) :
  processImageBuffer env W buffer = (t, Ok part) ->
  exists mime payload,
    part = imagePart mime payload /\
    In mime imageTypes /\
    bufferLength (Base64.decode payload) <= 18 * 1024 * 1024 /\
    Base64.encode (Base64.decode payload) = payload.
Proof.
  intros E.
  destruct (processImageBuffer_ok_shape env W buffer t part E) as (fmt & b & L & ->).
  exists (formatToMime fmt), (Base64.encode b).
  rewrite Base64Facts.decode_encode.
  repeat split; [apply formatToMime_in_table | exact L].
Qed.

Lemma normalized_part_within_ceiling_witness :
  exists mime payload,
    imagePart "image/png" "iQKAAeA=" = imagePart mime payload /\
    In mime imageTypes /\
    bufferLength (Base64.decode payload) <= 18 * 1024 * 1024 /\
    Base64.encode (Base64.decode payload) = payload.
Proof.
  apply (normalized_part_within_ceiling keyEnv Toy.world (Toy.image 640 480)
           [EvSharpMetadata (Toy.image 640 480)]).
  reflexivity.
Defined.

(** ** The base64 text of a buffer *)

Lemma digit_not_line_terminator n : notLineTerminator (Base64.digit n) = true.
Proof.
  unfold Base64.digit. generalize (Z.to_nat n) as k. intros k.
  do 64 (destruct k as [|k]; [reflexivity|]).
  reflexivity.
Qed.

Lemma encode_no_line_terminator b :
  JsString.forallb notLineTerminator (Base64.encode b) = true.
Proof.
  induction b as [|x|x y|x y z r IH] using Base64Facts.list_ind3;
    cbn [Base64.encode JsString.forallb];
    rewrite ?digit_not_line_terminator, ?IH; reflexivity.
Qed.

Lemma encode_length b :
  JsString.length (Base64.encode b) = 4 * ((bufferLength b + 2) / 3).
Proof.
  unfold JsString.length, bufferLength.
  induction b as [|x|x y|x y z r IH] using Base64Facts.list_ind3;
    cbn [Base64.encode String.length List.length]; try reflexivity.
  rewrite !Nat2Z.inj_succ, IH.
  Z.div_mod_to_equations. lia.
Qed.

Lemma encode_empty b : Base64.encode b = EmptyString <-> b = [].
Proof.
  destruct b as [|x [|y [|z r]]]; cbn [Base64.encode]; split; congruence.
Qed.

(** X7. The base64 text of a buffer of [n] bytes has four characters for
    every three bytes, rounded up; it is empty only for the empty buffer,
    holds no line break, and gives the bytes back when it is decoded. *)
Theorem base64_text_shape (b : Buffer) :
  JsString.length (Base64.encode b) = 4 * ((bufferLength b + 2) / 3) /\
  (Base64.encode b = EmptyString <-> b = []) /\
  JsString.forallb notLineTerminator (Base64.encode b) = true /\
  Base64.decode (Base64.encode b) = b.
Proof.
  split; [apply encode_length|].
  split; [apply encode_empty|].
  split; [apply encode_no_line_terminator | apply Base64Facts.decode_encode].
Qed.

Lemma imageTypes_data_uri mime payload :
  In mime imageTypes ->
  isDataURI ("data:" ++ mime ++ ";base64," ++ payload) = true.
Proof.
  unfold imageTypes. cbn [In]. intros H.
  assert (K : forall sub, sub <> EmptyString ->
            JsString.forallb notSemicolon sub = true ->
            isDataURI ("data:image/" ++ sub ++ ";base64," ++ payload) = true).
  { intros sub N F. apply isDataURI_spec. exists sub, payload. auto. }
  destruct H as [<-|[<-|[<-|[<-|[<-|[<-|[<-|[<-|[]]]]]]]]].
  - apply (K "jpeg"); [discriminate | reflexivity].
  - apply (K "png"); [discriminate | reflexivity].
  - apply (K "gif"); [discriminate | reflexivity].
  - apply (K "webp"); [discriminate | reflexivity].
  - apply (K "tiff"); [discriminate | reflexivity].
  - apply (K "avif"); [discriminate | reflexivity].
  - apply (K "heif"); [discriminate | reflexivity].
  - apply (K "heic"); [discriminate | reflexivity].
Qed.

(** X8. What the normalizer returns can be handed back as a data URI: for
    a part with a payload that is not empty, the reference built from its
    MIME type and payload is accepted by [toPart], in any environment and
    world, and gives the same part without a single call. *)
Theorem normalized_part_reingests_as_data_uri (env : Env) (W : World) (buffer : Buffer)
    (t : list Event) (part : GeminiPart) :
  processImageBuffer env W buffer = (t, Ok part) ->
  exists mime payload,
    part = imagePart mime payload /\
    (payload <> EmptyString ->
     forall (env' : Env) (W' : World),
       toPart env' W' ("data:" ++ mime ++ ";base64," ++ payload) = ([], Ok part)).
Proof.
  intros E.
  destruct (processImageBuffer_ok_shape env W buffer t part E) as (fmt & b & L & ->).
  exists (formatToMime fmt), (Base64.encode b). split; [reflexivity|].
  intros N env' W'.
  pose proof (formatToMime_in_table fmt) as I.
  destruct (imageTypes_shape _ I) as (_ & Hne & Hsemi).
  rewrite (toPart_data_uri_spec env' W' _ (imageTypes_data_uri _ (Base64.encode b) I)).
  rewrite (proj2 (execDataURI_spec _ (formatToMime fmt) (Base64.encode b))
             (conj eq_refl (conj Hne (conj Hsemi (conj N (encode_no_line_terminator b)))))).
  rewrite encode_length.
  destruct (Z.gtb_spec (4 * ((bufferLength b + 2) / 3) * 3) (MAX_IMAGE_SIZE_BYTES * 4)) as [G|_];
    [|reflexivity].
  exfalso. unfold MAX_IMAGE_SIZE_BYTES, MAX_IMAGE_SIZE_MB in *.
  Z.div_mod_to_equations. lia.
Qed.

Lemma normalized_part_reingests_as_data_uri_witness :
  toPart emptyEnv deadWorld "data:image/png;base64,iQKAAeA="
  = ([], Ok (imagePart "image/png" "iQKAAeA=")).
Proof.
  destruct (normalized_part_reingests_as_data_uri keyEnv Toy.world (Toy.image 640 480)
              [EvSharpMetadata (Toy.image 640 480)] (imagePart "image/png" "iQKAAeA=")
              eq_refl) as (mime & payload & P & R).
  injection P as <- <-.
  apply (R ltac:(discriminate) emptyEnv deadWorld).
Defined.

(** ** [toPart], branch by branch *)

Lemma processImageBuffer_log_in env W buffer ev :
  In ev (log (processImageBuffer env W buffer)) ->
  ev = EvSharpMetadata buffer \/ exists T, ev = EvSharpResize T T buffer.
Proof.
  destruct (processImageBuffer_cases env W buffer) as [(L & _) | (T & _ & _ & L & _)];
    rewrite L; cbn [In]; intros H.
  - destruct H as [<-|[]]. auto.
  - destruct H as [<-|[<-|[]]]; eauto.
Qed.

(** X9. A data URI is settled without a single call, in one of three
    ways: it is refused for its format, refused for a payload whose
    estimated size is above the ceiling, or returned as it stands, in which
    case the reference is exactly [data:], the MIME type of the part,
    [;base64,] and the payload of the part. The error for a declared type
    that is no image cannot occur. *)
Theorem data_uri_outcomes (env : Env) (W : World) (img : string) :
  isDataURI img = true ->
  log (toPart env W img) = [] /\
  (outcome (toPart env W img) = Throw InvalidDataURIFormat \/
   (exists n, n * 3 > MAX_IMAGE_SIZE_BYTES * 4 /\
      outcome (toPart env W img) = Throw (DataURITooLarge n)) \/
   (exists mime payload,
      outcome (toPart env W img) = Ok (imagePart mime payload) /\
      img = "data:" ++ mime ++ ";base64," ++ payload /\
      JsString.startsWith mime "image/" = true /\
      payload <> EmptyString /\
      JsString.length payload * 3 <= MAX_IMAGE_SIZE_BYTES * 4)).
Proof.
  intros D. rewrite (toPart_data_uri_spec env W img D).
  destruct (execDataURI img) as [[mime payload]|] eqn:E.
  - pose proof (data_uri_mime_is_image img mime payload D E) as Im.
    apply execDataURI_spec in E. destruct E as (E & _ & _ & Np & _).
    destruct (Z.gtb_spec (JsString.length payload * 3) (MAX_IMAGE_SIZE_BYTES * 4)) as [G|L].
    + split; [reflexivity|]. right. left. exists (JsString.length payload).
      split; [lia | reflexivity].
    + split; [reflexivity|]. right. right. exists mime, payload. auto.
  - split; [reflexivity|]. left. reflexivity.
Qed.

Lemma data_uri_outcomes_witness :
  log (toPart emptyEnv deadWorld "data:image/webp;base64,UklGRg==") = [] /\
  outcome (toPart emptyEnv deadWorld "data:image/webp;base64,UklGRg==")
    = Ok (imagePart "image/webp" "UklGRg==").
Proof.
  destruct (data_uri_outcomes emptyEnv deadWorld "data:image/webp;base64,UklGRg==" eq_refl)
    as (L & _).
  split; [exact L | reflexivity].
Defined.

(** X10. A data URI whose payload is empty, or holds a line break, is
    refused for its format, without a call. *)
Theorem data_uri_payload_must_be_one_line (env : Env) (W : World)
    (subtype payload : string) :
  subtype <> EmptyString ->
  JsString.forallb notSemicolon subtype = true ->
  payload = EmptyString \/ JsString.forallb notLineTerminator payload = false ->
  toPart env W ("data:image/" ++ subtype ++ ";base64," ++ payload)
    = ([], Throw InvalidDataURIFormat).
Proof.
  intros Ns Fs Bad.
  assert (D : isDataURI ("data:image/" ++ subtype ++ ";base64," ++ payload) = true).
  { apply isDataURI_spec. exists subtype, payload. auto. }
  rewrite (toPart_data_uri_spec env W _ D).
  destruct (execDataURI ("data:image/" ++ subtype ++ ";base64," ++ payload))
    as [[mime p]|] eqn:E; [|reflexivity].
  exfalso. apply execDataURI_spec in E. destruct E as (E & _ & Fm & Np & Fp).
  injection E as E.
  assert (S1 : JsString.span notSemicolon ("image/" ++ subtype ++ ";base64," ++ payload)
               = ("image/" ++ subtype, ";base64," ++ payload)).
  { apply JsStringFacts.span_spec. repeat split. cbn. exact Fs. }
  assert (S2 : JsString.span notSemicolon (mime ++ ";base64," ++ p)
               = (mime, ";base64," ++ p)).
  { apply JsStringFacts.span_spec. repeat split. exact Fm. }
  assert (X : ("image/" ++ subtype, ";base64," ++ payload) = (mime, ";base64," ++ p)).
  { rewrite <- S1, <- S2. f_equal. exact E. }
  injection X as _ X. subst p.
  destruct Bad as [-> | B]; [apply Np; reflexivity | congruence].
Qed.

Lemma data_uri_payload_must_be_one_line_witness :
  toPart emptyEnv deadWorld "data:image/png;base64," = ([], Throw InvalidDataURIFormat).
Proof.
  apply (data_uri_payload_must_be_one_line emptyEnv deadWorld "png" EmptyString).
  - discriminate.
  - reflexivity.
  - left. reflexivity.
Defined.

(** X11. The bytes behind a remote URL reach the codec only when the
    response has status 200, declares a content type under [image/] and
    has a body within the ceiling; the buffer that is decoded is that
    body. *)
Theorem remote_image_decoded_only_if_acceptable (env : Env) (W : World)
    (img : string) (b : Buffer) :
  isURL img = true ->
  In (EvSharpMetadata b) (log (toPart env W img)) ->
  exists response,
    requestGet W img = Some response /\
    statusCode response = 200 /\
    JsString.startsWith (orElse (contentType response) EmptyString) "image/" = true /\
    arrayBuffer response = Some b /\
    bufferLength b <= MAX_IMAGE_SIZE_BYTES.
Proof.
  intros U. unfold toPart.
  destruct (isDataURI img) eqn:D.
  { rewrite (isDataURI_not_URL img D) in U. discriminate U. }
  rewrite U. intros H.
  apply in_log_bind in H. destruct H as [H | (resp & R & H)].
  { apply in_log_call in H. discriminate H. }
  unfold call in R. cbn [outcome snd] in R.
  destruct (requestGet W img) as [resp'|]; [|discriminate R]. injection R as ->.
  destruct (Z.eqb_spec (statusCode resp) 200) as [S|S]; cbn [negb] in H; [|destruct H].
  destruct (JsString.startsWith (orElse (contentType resp) EmptyString) "image/") eqn:C;
    cbn [negb] in H; [|destruct H].
  apply in_log_bind in H. destruct H as [H | (buffer & B & H)].
  { destruct (arrayBuffer resp); destruct H. }
  unfold liftResult in B. cbn [outcome snd] in B.
  destruct (arrayBuffer resp) as [buffer'|] eqn:A; [|discriminate B]. injection B as ->.
  destruct (Z.gtb_spec (bufferLength buffer) MAX_IMAGE_SIZE_BYTES) as [G|L]; [destruct H|].
  apply processImageBuffer_log_in in H.
  destruct H as [H | (T & H)]; [|discriminate H]. injection H as ->.
  exists resp. auto.
Qed.

Lemma remote_image_decoded_only_if_acceptable_witness :
  exists response,
    requestGet Toy.world "https://x/y.png" = Some response /\
    statusCode response = 200 /\
    JsString.startsWith (orElse (contentType response) EmptyString) "image/" = true /\
    arrayBuffer response = Some (Toy.image 640 480) /\
    bufferLength (Toy.image 640 480) <= MAX_IMAGE_SIZE_BYTES.
Proof.
  apply (remote_image_decoded_only_if_acceptable keyEnv Toy.world "https://x/y.png"
           (Toy.image 640 480) eq_refl).
  right. left. reflexivity.
Defined.

(** X12. [toPart] touches nothing but its own reference: the only URL it
    fetches is the reference itself, the only file it reads is at an
    absolute path, which is the reference or what [fileURLToPath] made of
    it; beyond that it calls the codec, and it never posts, never runs a
    command and never asks for credentials. *)
Theorem toPart_touches_only_its_reference (env : Env) (W : World) (img : string)
    (ev : Event) :
  In ev (log (toPart env W img)) ->
  match ev with
  | EvRequestGet url => url = img /\ isURL img = true
  | EvReadFile path =>
      isAbsPath path = true /\
      (path = img \/ (isFileURL img = true /\ fileURLToPath W img = Some path))
  | EvSharpMetadata _ | EvSharpResize _ _ _ => True
  | EvRequestPost _ _ _ | EvAuthLibrary | EvExec _ => False
  end.
Proof.
  assert (P : forall buffer, In ev (log (processImageBuffer env W buffer)) ->
              match ev with
              | EvRequestGet url => url = img /\ isURL img = true
              | EvReadFile path =>
                  isAbsPath path = true /\
                  (path = img \/ (isFileURL img = true /\ fileURLToPath W img = Some path))
              | EvSharpMetadata _ | EvSharpResize _ _ _ => True
              | EvRequestPost _ _ _ | EvAuthLibrary | EvExec _ => False
              end).
  { intros buffer H. apply processImageBuffer_log_in in H.
    destruct H as [-> | (T & ->)]; exact I. }
  unfold toPart.
  destruct (isDataURI img).
  - destruct (execDataURI img) as [[mime payload]|]; [|intros []].
    destruct (negb (JsString.startsWith mime "image/")); [intros []|].
    destruct (JsString.length payload * 3 >? MAX_IMAGE_SIZE_BYTES * 4); intros [].
  - destruct (isURL img) eqn:U.
    + intros H. apply in_log_bind in H. destruct H as [H | (resp & _ & H)].
      * apply in_log_call in H. subst ev. auto.
      * destruct (negb (statusCode resp =? 200)); [destruct H|].
        destruct (negb (JsString.startsWith (orElse (contentType resp) EmptyString) "image/"));
          [destruct H|].
        apply in_log_bind in H. destruct H as [H | (buffer & _ & H)].
        -- destruct (arrayBuffer resp); destruct H.
        -- destruct (bufferLength buffer >? MAX_IMAGE_SIZE_BYTES); [destruct H|].
           apply (P buffer H).
    + intros H. apply in_log_bind in H. destruct H as [H | (p & Hp & H)].
      * destruct (isFileURL img); [|destruct H].
        destruct (fileURLToPath W img); destruct H.
      * destruct (isAbsPath p) eqn:A; [|destruct H].
        apply in_log_bind in H. destruct H as [H | (buffer & _ & H)].
        -- apply in_log_call in H. subst ev. split; [exact A|].
           destruct (isFileURL img) eqn:F.
           ++ right. split; [reflexivity|].
              unfold liftResult in Hp. cbn [outcome snd] in Hp.
              destruct (fileURLToPath W img) as [q|]; [|discriminate Hp].
              injection Hp as ->. reflexivity.
           ++ left. cbn in Hp. injection Hp as ->. reflexivity.
        -- apply (P buffer H).
Qed.

Lemma toPart_touches_only_its_reference_witness :
  isAbsPath "/tmp/a.jpg" = true /\
  ("/tmp/a.jpg" = "file:///tmp/a.jpg" \/
   (isFileURL "file:///tmp/a.jpg" = true /\
    fileURLToPath Toy.world "file:///tmp/a.jpg" = Some "/tmp/a.jpg")).
Proof.
  apply (toPart_touches_only_its_reference keyEnv Toy.world "file:///tmp/a.jpg"
           (EvReadFile "/tmp/a.jpg")).
  left. reflexivity.
Defined.

(** ** The handler, check by check *)

(** The handler either stops at one of its five checks, before any call,
    or runs the loop and the provider on the list of references. *)
Lemma callTool_cases env W name args :
  let run := callTool env W name args in
  (log run = [] /\
   (outcome run = Throw (UnknownTool name) \/ outcome run = Throw MissingImages \/
    outcome run = Throw MissingInstruction \/ outcome run = Throw AtLeastOneImage \/
    exists n, n > MAX_IMAGES /\ outcome run = Throw (TooManyImages n))) \/
  (exists imageArray instr,
     name = "vision.analyze" /\
     (images args = Some (ImagesArray imageArray) \/
      exists s, s <> EmptyString /\ images args = Some (ImagesString s) /\ imageArray = [s]) /\
     instruction args = Some instr /\
     blankInstruction (Some instr) = false /\
     (1 <= List.length imageArray <= 10)%nat /\
     run = bind (convertAll env W imageArray [])
             (fun parts =>
                bind (callGemini env W (parts ++ [textPart instr])%list)
                  (fun text =>
                     ret {| content := [ {| Content.type := "text";
                                            Content.text := text |} ] |}))).
Proof.
  intros run. subst run. unfold callTool.
  destruct (String.eqb_spec name "vision.analyze") as [->|N]; cbn [negb].
  2:{ left. cbn. auto. }
  destruct (falsyImages (images args)) eqn:FI.
  { left. cbn. auto. }
  destruct (blankInstruction (instruction args)) eqn:BI.
  { left. cbn. auto 6. }
  destruct (images args) as [imgs|] eqn:Im; [|discriminate FI].
  destruct (instruction args) as [instr|] eqn:In; [|discriminate BI].
  set (imageArray := match imgs with ImagesArray l => l | ImagesString s => [s] end).
  destruct (Z.eqb_spec (Z.of_nat (List.length imageArray)) 0) as [Z0|NZ].
  { left. cbn. auto 6. }
  destruct (Z.gtb_spec (Z.of_nat (List.length imageArray)) MAX_IMAGES) as [G|L].
  { left. split; [reflexivity|]. do 4 right. eexists. split; [|reflexivity]. lia. }
  right. exists imageArray, instr. split; [reflexivity|].
  split.
  { subst imageArray. destruct imgs as [s|l]; [right | left; reflexivity].
    exists s. split; [|auto]. intros ->. discriminate FI. }
  split; [reflexivity|]. split; [exact BI|].
  split; [unfold MAX_IMAGES in L; lia | reflexivity].
Qed.

Lemma convertAll_fails env W pre bad post ps acc e :
  Forall2 (fun img p => outcome (toPart env W img) = Ok p) pre ps ->
  outcome (toPart env W bad) = Throw e ->
  convertAll env W (pre ++ bad :: post) acc =
    ((flat_map (fun img => log (toPart env W img)) pre ++ log (toPart env W bad))%list,
     Throw e).
Proof.
  intros F B. revert acc. induction F as [|img p pre ps Hp F IH]; intros acc.
  - cbn [app flat_map convertAll].
    destruct (toPart env W bad) as [t r]. cbn in B. subst r. reflexivity.
  - cbn [app flat_map convertAll].
    destruct (toPart env W img) as [t r]. cbn in Hp. subst r.
    cbn [bind log fst]. rewrite IH, app_assoc. reflexivity.
Qed.

(** X13. The first reference that fails to convert ends the invocation
    with its own error: the references before it were converted, those
    after it are never touched, and the provider is not called. *)
Theorem first_failing_image_aborts (env : Env) (W : World)
    (pre : list string) (bad : string) (post : list string)
    (instr : string) (ps : list GeminiPart) (e : Error) :
  blankInstruction (Some instr) = false ->
  (List.length (pre ++ bad :: post) <= 10)%nat ->
  Forall2 (fun img p => outcome (toPart env W img) = Ok p) pre ps ->
  outcome (toPart env W bad) = Throw e ->
  callTool env W "vision.analyze"
    {| images := Some (ImagesArray (pre ++ bad :: post)); instruction := Some instr |}
  = ((flat_map (fun img => log (toPart env W img)) pre ++ log (toPart env W bad))%list,
     Throw e).
Proof.
  intros B L F Bad. unfold callTool.
  change (negb (String.eqb "vision.analyze" "vision.analyze")) with false.
  cbn [images instruction falsyImages]. rewrite B. cbv iota.
  rewrite length_app in L. cbn [List.length] in L.
  destruct (Z.eqb_spec (Z.of_nat (List.length (pre ++ bad :: post))) 0) as [Z0|_].
  { rewrite length_app in Z0. cbn [List.length] in Z0. lia. }
  destruct (Z.gtb_spec (Z.of_nat (List.length (pre ++ bad :: post))) MAX_IMAGES) as [G|_].
  { rewrite length_app in G. cbn [List.length] in G. unfold MAX_IMAGES in G. lia. }
  rewrite (convertAll_fails env W pre bad post ps [] e F Bad). reflexivity.
Qed.

Lemma first_failing_image_aborts_witness :
  callTool keyEnv Toy.world "vision.analyze"
    {| images := Some (ImagesArray [ "/tmp/a.jpg"; "/etc/passwd"; "https://x/y.png" ]);
       instruction := Some "describe" |}
  = ([ EvReadFile "/tmp/a.jpg"; EvSharpMetadata (Toy.image 640 480);
       EvReadFile "/etc/passwd"; EvSharpMetadata (list_byte_of_string "root:x:0:0") ],
     Throw NotAValidImageFile).
Proof.
  assert (F : Forall2 (fun img p => outcome (toPart keyEnv Toy.world img) = Ok p)
                ["/tmp/a.jpg"] [imagePart "image/png" "iQKAAeA="]).
  { repeat constructor. }
  exact (first_failing_image_aborts keyEnv Toy.world ["/tmp/a.jpg"] "/etc/passwd"
           ["https://x/y.png"] "describe" _ NotAValidImageFile
           eq_refl ltac:(cbn; lia) F eq_refl).
Defined.

(** X14. A call leaves the process only for an invocation that passed all
    five checks of the handler: the right tool name, images that are
    present, an instruction that is not blank, and between one and ten
    references. *)
Theorem no_call_on_invalid_invocation (env : Env) (W : World) (name : string)
    (args : ToolArguments) :
  log (callTool env W name args) <> [] ->
  name = "vision.analyze" /\
  blankInstruction (instruction args) = false /\
  match images args with
  | None => False
  | Some (ImagesString s) => s <> EmptyString
  | Some (ImagesArray l) => (1 <= List.length l <= 10)%nat
  end.
Proof.
  intros H.
  destruct (callTool_cases env W name args)
    as [(L & _) | (imageArray & instr & N & Im & In & B & Len & _)].
  - contradiction.
  - split; [exact N|]. rewrite In. split; [exact B|].
    destruct Im as [-> | (s & Ns & -> & _)]; assumption.
Qed.

Lemma no_call_on_invalid_invocation_witness :
  "vision.analyze" = "vision.analyze" /\
  blankInstruction (Some "describe") = false /\
  (1 <= List.length ["/tmp/a.jpg"; "/tmp/b.jpg"] <= 10)%nat.
Proof.
  apply (no_call_on_invalid_invocation emptyEnv Toy.world "vision.analyze"
           {| images := Some (ImagesArray ["/tmp/a.jpg"; "/tmp/b.jpg"]);
              instruction := Some "describe" |}).
  discriminate.
Defined.

(** ** One request to the provider *)

Lemma countPosts_app t1 t2 : countPosts (t1 ++ t2) = (countPosts t1 + countPosts t2)%nat.
Proof. unfold countPosts. rewrite filter_app, length_app. reflexivity. Qed.

Lemma countPosts_none t :
  (forall ev, In ev t -> ~ isPost ev) -> countPosts t = 0%nat.
Proof.
  unfold countPosts. induction t as [|ev t IH]; intros H; [reflexivity|].
  cbn [filter]. destruct ev; cbn [isPostb];
    try (apply IH; intros ev' I; apply H; right; exact I).
  exfalso. apply (H _ (or_introl eq_refl)). exact I.
Qed.

Lemma log_bind_call_silent {A B} ev (r : option A) e (f : A -> M B) :
  (forall a, log (f a) = []) -> log (bind (call ev r e) f) = [ev].
Proof.
  intros F. unfold call, bind. destruct r as [a|]; [|reflexivity].
  specialize (F a). destruct (f a) as [t x]. cbn in F. subst t. reflexivity.
Qed.

Lemma readResponse_success provider response text :
  outcome (readResponse provider response) = Ok text ->
  exists json, postJson response = Some json /\ postStatusCode response = 200 /\
               extractText json = Ok text.
Proof.
  unfold readResponse.
  destruct (postJson response) as [json|]; [|destruct (postText response); discriminate].
  destruct (Z.eqb_spec (postStatusCode response) 200) as [S|S]; cbn [negb].
  - intros E. exists json. auto.
  - unfold liftResult. destruct (apiErrorMessage json); discriminate.
Qed.

(** What [callGemini] leaves in the log: at most one request, and exactly
    one, answered with status 200, behind every text it returns. *)
Lemma callGemini_one_request env W parts :
  let run := callGemini env W parts in
  (countPosts (log run) <= 1)%nat /\
  forall text, outcome run = Ok text ->
    countPosts (log run) = 1%nat /\
    exists url headers response json,
      In (EvRequestPost url headers parts) (log run) /\
      requestPost W url headers parts = Some response /\
      postStatusCode response = 200 /\ postJson response = Some json /\
      extractText json = Ok text.
Proof.
  intros run. subst run. unfold callGemini.
  assert (K : forall url headers provider,
            let r := bind (call (EvRequestPost url headers parts)
                                (requestPost W url headers parts) (RequestRejected url))
                          (readResponse provider) in
            log r = [EvRequestPost url headers parts] /\
            forall text, outcome r = Ok text ->
              exists response json,
                requestPost W url headers parts = Some response /\
                postStatusCode response = 200 /\ postJson response = Some json /\
                extractText json = Ok text).
  { intros url headers provider r. subst r.
    split; [apply log_bind_call_silent; intros a; apply readResponse_log|].
    intros text. rewrite outcome_bind_call.
    destruct (requestPost W url headers parts) as [response|]; [|discriminate].
    intros O. apply readResponse_success in O. destruct O as (json & J & S & X).
    exists response, json. auto. }
  destruct (String.eqb (PROVIDER (loadConfig env)) "vertex").
  - unfold callGeminiVertex.
    destruct (negb (truthyString (env "GOOGLE_CLOUD_PROJECT")));
      [split; [cbn; lia | discriminate]|].
    pose proof (getVertexAccessToken_no_post env W) as NP.
    destruct (getVertexAccessToken env W) as [tt [token|e]]; cbn [log fst] in NP.
    + cbn [bind].
      match goal with
      | |- context [call (EvRequestPost ?u ?h parts) ?r ?e] =>
          destruct (K u h "Vertex") as (L & S);
          destruct (bind (call (EvRequestPost u h parts) r e) (readResponse "Vertex"))
            as [t2 r2] eqn:E
      end.
      cbn [log fst outcome snd] in *. subst t2.
      rewrite countPosts_app, (countPosts_none tt NP).
      split; [cbn; lia|].
      intros text O. split; [reflexivity|].
      destruct (S text O) as (response & json & X).
      do 2 eexists. exists response, json. split; [|exact X].
      apply in_or_app. right. left. reflexivity.
    + cbn [bind log fst outcome snd]. rewrite (countPosts_none tt NP).
      split; [lia | discriminate].
  - unfold callGeminiAIStudio.
    destruct (negb (truthyString (API_KEY (loadConfig env))));
      [split; [cbn; lia | discriminate]|].
    match goal with
    | |- context [call (EvRequestPost ?u ?h parts) ?r ?e] =>
        destruct (K u h "Gemini") as (L & S);
        destruct (bind (call (EvRequestPost u h parts) r e) (readResponse "Gemini"))
          as [t2 r2] eqn:E
    end.
    cbn [log fst outcome snd] in *. subst t2. split; [cbn; lia|].
    intros text O. split; [reflexivity|].
    destruct (S text O) as (response & json & X).
    do 2 eexists. exists response, json. split; [left; reflexivity | exact X].
Qed.

Lemma convertAll_log_no_post env W imgs acc :
  countPosts (log (convertAll env W imgs acc)) = 0%nat.
Proof. apply countPosts_none. intros ev H. apply (convertAll_no_post env W imgs acc ev H). Qed.

(** X15. The provider is called at most once for an invocation, and
    exactly once for an invocation that succeeds. *)
Theorem provider_called_at_most_once (env : Env) (W : World) (name : string)
    (args : ToolArguments) :
  let run := callTool env W name args in
  (countPosts (log run) <= 1)%nat /\
  forall result, outcome run = Ok result -> countPosts (log run) = 1%nat.
Proof.
  intros run. subst run.
  destruct (callTool_cases env W name args)
    as [(L & O) | (imageArray & instr & _ & _ & _ & _ & _ & R)].
  - rewrite L. split; [cbn; lia|]. intros result E. rewrite E in O.
    destruct O as [O | [O | [O | [O | (n & _ & O)]]]]; discriminate O.
  - rewrite R.
    pose proof (convertAll_log_no_post env W imageArray []) as C.
    destruct (convertAll env W imageArray []) as [t1 [parts|e]]; cbn [log fst] in C.
    + cbn [bind].
      destruct (callGemini_one_request env W (parts ++ [textPart instr])%list) as (Le & Ok1).
      destruct (callGemini env W (parts ++ [textPart instr])%list) as [t2 [text|e]];
        cbn [bind log fst outcome snd ret] in *;
        rewrite ?app_nil_r, countPosts_app, C.
      * destruct (Ok1 text eq_refl) as (One & _). rewrite One. split; [lia | reflexivity].
      * split; [exact Le | discriminate].
    + cbn [bind log fst outcome snd]. rewrite C. split; [lia | discriminate].
Qed.

(** X16. The text that a successful invocation returns is the text read
    from the provider's answer, unchanged, in a single item of type
    [text]: there was a request that carried the parts, it was answered
    with status 200, and the result holds what the extraction gave. *)
Theorem successful_result_is_provider_text (env : Env) (W : World) (name : string)
    (args : ToolArguments) (result : ToolResult) :
  outcome (callTool env W name args) = Ok result ->
  exists url headers parts response json text,
    In (EvRequestPost url headers parts) (log (callTool env W name args)) /\
    requestPost W url headers parts = Some response /\
    postStatusCode response = 200 /\
    postJson response = Some json /\
    extractText json = Ok text /\
    result = {| content := [ {| Content.type := "text"; Content.text := text |} ] |}.
Proof.
  intros E.
  destruct (callTool_cases env W name args)
    as [(_ & O) | (imageArray & instr & _ & _ & _ & _ & _ & R)].
  - rewrite E in O.
    destruct O as [O | [O | [O | [O | (n & _ & O)]]]]; discriminate O.
  - rewrite R in E |- *.
    destruct (convertAll env W imageArray []) as [t1 [parts|e]]; [|discriminate E].
    cbn [bind] in E |- *.
    destruct (callGemini_one_request env W (parts ++ [textPart instr])%list) as (_ & Ok1).
    destruct (callGemini env W (parts ++ [textPart instr])%list) as [t2 [text|e]];
      cbn [bind log fst outcome snd ret] in *; [|discriminate E].
    injection E as <-.
    destruct (Ok1 text eq_refl) as (_ & url & headers & response & json & I & X).
    exists url, headers, (parts ++ [textPart instr])%list, response, json, text.
    split; [|tauto].
    apply in_or_app. right. rewrite app_nil_r. exact I.
Qed.

Lemma successful_result_is_provider_text_witness :
  exists url headers parts response json text,
    In (EvRequestPost url headers parts)
       (log (callTool keyEnv Toy.world "vision.analyze"
               {| images := Some (ImagesString "/tmp/a.jpg");
                  instruction := Some "describe" |})) /\
    requestPost Toy.world url headers parts = Some response /\
    postStatusCode response = 200 /\
    postJson response = Some json /\
    extractText json = Ok text /\
    {| content := [ {| Content.type := "text"; Content.text := "ok" |} ] |}
      = {| content := [ {| Content.type := "text"; Content.text := text |} ] |}.
Proof.
  apply (successful_result_is_provider_text keyEnv Toy.world "vision.analyze"
           {| images := Some (ImagesString "/tmp/a.jpg"); instruction := Some "describe" |}).
  reflexivity.
Defined.

(** ** The instruction *)

Lemma trimStart_empty s :
  JsString.trimStart s = EmptyString <-> JsString.forallb JsString.isWhiteSpace s = true.
Proof.
  induction s as [|c r IH]; cbn [JsString.trimStart JsString.forallb];
    [split; reflexivity|].
  destruct (JsString.isWhiteSpace c); cbn [andb]; [exact IH|].
  split; discriminate.
Qed.

Lemma trimStart_stops s :
  JsString.stopsAt JsString.isWhiteSpace (JsString.trimStart s).
Proof.
  induction s as [|c r IH]; cbn [JsString.trimStart]; [exact I|].
  destruct (JsString.isWhiteSpace c) eqn:E; [exact IH | exact E].
Qed.

Lemma trimEnd_empty s :
  JsString.trimEnd s = EmptyString <-> JsString.forallb JsString.isWhiteSpace s = true.
Proof.
  induction s as [|c r IH]; cbn [JsString.trimEnd JsString.forallb];
    [split; reflexivity|].
  destruct (JsString.trimEnd r) as [|c' r'].
  - destruct (JsString.isWhiteSpace c); cbn [andb].
    + split; [intros _; apply IH; reflexivity | reflexivity].
    + split; discriminate.
  - split; [discriminate|].
    intros H. apply andb_true_iff in H. destruct H as [_ H].
    apply IH in H. discriminate H.
Qed.

Lemma trim_empty s :
  JsString.trim s = EmptyString <-> JsString.forallb JsString.isWhiteSpace s = true.
Proof.
  unfold JsString.trim. pose proof (trimStart_stops s) as St. split.
  - intros H. apply trimEnd_empty in H. apply trimStart_empty.
    destruct (JsString.trimStart s) as [|c r]; [reflexivity|].
    cbn [JsString.stopsAt] in St. cbn [JsString.forallb] in H.
    rewrite St in H. discriminate H.
  - intros H. apply trimStart_empty in H. rewrite H. reflexivity.
Qed.

Lemma length_zero s : (JsString.length s =? 0) = true <-> s = EmptyString.
Proof.
  unfold JsString.length. destruct s; cbn [String.length]; split;
    try reflexivity; discriminate.
Qed.

(** X17. The handler takes an instruction for missing exactly when it is
    absent or made of white space only: one code unit that is no white
    space is enough for it to pass. *)
Theorem instruction_blank_iff_whitespace (i : option string) :
  blankInstruction i = true <->
  match i with
  | None => True
  | Some s => JsString.forallb JsString.isWhiteSpace s = true
  end.
Proof.
  destruct i as [s|]; cbn [blankInstruction]; [|tauto].
  rewrite orb_true_iff, length_zero, trim_empty.
  split; [|auto].
  intros [E|H]; [|exact H]. destruct s; [reflexivity | discriminate E].
Qed.

(** ** Configuration *)

Lemma convertAll_all_ok env W imgs ps acc :
  Forall2 (fun img p => outcome (toPart env W img) = Ok p) imgs ps ->
  convertAll env W imgs acc =
    (flat_map (fun img => log (toPart env W img)) imgs, Ok (acc ++ ps)%list).
Proof.
  intros F. revert acc. induction F as [|img p imgs ps Hp F IH]; intros acc.
  - cbn. rewrite app_nil_r. reflexivity.
  - cbn [flat_map convertAll].
    destruct (toPart env W img) as [t r]. cbn in Hp. subst r.
    cbn [bind log fst]. rewrite IH, <- app_assoc. reflexivity.
Qed.

(** X18. The configuration of the provider is looked at only after the
    images: with the API key missing (AI Studio) or the project missing
    (Vertex), an invocation whose references all convert still fetches,
    reads and decodes every one of them, and only then fails with the
    configuration error, without a request and without a token. *)
Theorem missing_configuration_surfaces_after_conversion (env : Env) (W : World)
    (imgs : list string) (instr : string) (ps : list GeminiPart) :
  blankInstruction (Some instr) = false ->
  (1 <= List.length imgs <= 10)%nat ->
  Forall2 (fun img p => outcome (toPart env W img) = Ok p) imgs ps ->
  (if String.eqb (PROVIDER (loadConfig env)) "vertex"
   then truthyString (env "GOOGLE_CLOUD_PROJECT")
   else truthyString (API_KEY (loadConfig env))) = false ->
  callTool env W "vision.analyze"
    {| images := Some (ImagesArray imgs); instruction := Some instr |}
  = (flat_map (fun img => log (toPart env W img)) imgs,
     Throw (if String.eqb (PROVIDER (loadConfig env)) "vertex"
            then ProjectRequired else ApiKeyRequired)).
Proof.
  intros B L F C. unfold callTool.
  change (negb (String.eqb "vision.analyze" "vision.analyze")) with false.
  cbn [images instruction falsyImages]. rewrite B. cbv iota.
  destruct (Z.eqb_spec (Z.of_nat (List.length imgs)) 0) as [Z0|_]; [lia|].
  destruct (Z.gtb_spec (Z.of_nat (List.length imgs)) MAX_IMAGES) as [G|_];
    [unfold MAX_IMAGES in G; lia|].
  rewrite (convertAll_all_ok env W imgs ps [] F). cbn [bind app].
  unfold callGemini.
  destruct (String.eqb (PROVIDER (loadConfig env)) "vertex").
  - unfold callGeminiVertex. rewrite C. cbn. rewrite app_nil_r. reflexivity.
  - unfold callGeminiAIStudio. rewrite C. cbn. rewrite app_nil_r. reflexivity.
Qed.

Lemma missing_configuration_surfaces_after_conversion_witness :
  callTool emptyEnv Toy.world "vision.analyze"
    {| images := Some (ImagesArray ["https://x/y.png"; "/tmp/a.jpg"]);
       instruction := Some "describe" |}
  = ([ EvRequestGet "https://x/y.png"; EvSharpMetadata (Toy.image 640 480);
       EvReadFile "/tmp/a.jpg"; EvSharpMetadata (Toy.image 640 480) ],
     Throw ApiKeyRequired).
Proof.
  assert (F : Forall2 (fun img p => outcome (toPart emptyEnv Toy.world img) = Ok p)
                ["https://x/y.png"; "/tmp/a.jpg"]
                [imagePart "image/png" "iQKAAeA="; imagePart "image/png" "iQKAAeA="]).
  { repeat constructor. }
  exact (missing_configuration_surfaces_after_conversion emptyEnv Toy.world
           ["https://x/y.png"; "/tmp/a.jpg"] "describe" _
           eq_refl ltac:(cbn; lia) F eq_refl).
Defined.

Lemma digit_char c :
  JsString.isDigit c = true ->
  forall r,
    parseInt10 (String c r) =
      (let (digits, _) := JsString.span JsString.isDigit (String c r) in
       Some (digitsValue digits 0)).
Proof.
  destruct c as [[] [] [] [] [] [] [] []]; intros H; try discriminate H;
    intros r; unfold parseInt10; cbn [JsString.trimStart JsString.span];
    match goal with
    | |- context [JsString.isWhiteSpace ?c] => change (JsString.isWhiteSpace c) with false
    end;
    cbv beta iota; cbn [JsString.span]; rewrite H;
    destruct (JsString.span JsString.isDigit r); reflexivity.
Qed.

Lemma digitsValue_nonneg s acc :
  JsString.forallb JsString.isDigit s = true -> 0 <= acc -> 0 <= digitsValue s acc.
Proof.
  revert acc. induction s as [|c r IH]; intros acc F A; cbn [digitsValue]; [exact A|].
  cbn [JsString.forallb] in F. apply andb_true_iff in F. destruct F as [D F].
  apply IH; [exact F|].
  unfold JsString.isDigit in D. apply andb_true_iff in D. destruct D as [D _].
  apply Z.leb_le in D. lia.
Qed.

(** X19. The threshold is read as [parseInt] reads: when the variable
    starts with decimal digits that spell a number below 2^53, the
    threshold is that number, never negative, and whatever follows the
    digits is ignored. *)
Theorem threshold_reads_leading_digits (env : Env) (digits rest : string) :
  env "VISION_MAX_LONG_EDGE" = Some (digits ++ rest) ->
  digits <> EmptyString ->
  JsString.forallb JsString.isDigit digits = true ->
  JsString.stopsAt JsString.isDigit rest ->
  digitsValue digits 0 < exactIntegerBound ->
  MAX_LONG_EDGE (loadConfig env) = Some (digitsValue digits 0) /\
  0 <= digitsValue digits 0.
Proof.
  intros E N F S _. split; [|apply digitsValue_nonneg; [exact F | lia]].
  unfold loadConfig. cbn [MAX_LONG_EDGE]. rewrite E.
  destruct digits as [|c d]; [contradiction|].
  cbn [append]. pose proof F as F'. cbn [JsString.forallb] in F'.
  apply andb_true_iff in F'. destruct F' as [Dc _].
  rewrite (digit_char c Dc).
  change (String c (d ++ rest)) with (String c d ++ rest).
  rewrite (proj2 (JsStringFacts.span_spec JsString.isDigit _ (String c d) rest)
             (conj eq_refl (conj F S))).
  reflexivity.
Qed.

Lemma threshold_reads_leading_digits_witness :
  MAX_LONG_EDGE (loadConfig (fun k => if String.eqb k "VISION_MAX_LONG_EDGE"
                                      then Some "1024px" else None)) = Some 1024 /\
  0 <= 1024.
Proof.
  apply (threshold_reads_leading_digits
           (fun k => if String.eqb k "VISION_MAX_LONG_EDGE" then Some "1024px" else None)
           "1024" "px").
  - reflexivity.
  - discriminate.
  - reflexivity.
  - reflexivity.
  - reflexivity.
Defined.

(** ** The provider *)

Lemma length_positive s : (JsString.length s >? 0) = true -> s <> EmptyString.
Proof. intros H ->. discriminate H. Qed.

(** Every way the token chain can end. *)
Lemma getVertexAccessToken_cases env W :
  let run := getVertexAccessToken env W in
  (exists explicit, env "GOOGLE_OAUTH_ACCESS_TOKEN" = Some explicit /\
     JsString.trim explicit <> EmptyString /\
     run = ([], Ok (JsString.trim explicit))) \/
  (exists t, authLibraryToken W = Some (Some t) /\
     JsString.trim t <> EmptyString /\
     run = ([EvAuthLibrary], Ok (JsString.trim t))) \/
  (exists out, exec W adcCommand = Some out /\
     JsString.trim out <> EmptyString /\
     run = ([EvAuthLibrary; EvExec adcCommand], Ok (JsString.trim out))) \/
  (exists out, exec W userCommand = Some out /\
     JsString.trim out <> EmptyString /\
     run = ([EvAuthLibrary; EvExec adcCommand; EvExec userCommand],
            Ok (JsString.trim out))) \/
  run = ([EvAuthLibrary; EvExec adcCommand; EvExec userCommand],
         Throw FailedToGetVertexToken).
Proof.
  intros run. subst run. unfold getVertexAccessToken.
  destruct (truthyString (env "GOOGLE_OAUTH_ACCESS_TOKEN")
            && (JsString.length
                  (JsString.trim (orElse (env "GOOGLE_OAUTH_ACCESS_TOKEN") EmptyString)) >? 0))
    eqn:C.
  { left. apply andb_true_iff in C. destruct C as [C1 C2].
    destruct (env "GOOGLE_OAUTH_ACCESS_TOKEN") as [[|c x]|]; try discriminate C1.
    exists (String c x). split; [reflexivity|].
    split; [apply length_positive; exact C2 | reflexivity]. }
  clear C. right.
  assert (Cmds :
    (exists out, exec W adcCommand = Some out /\ JsString.trim out <> EmptyString /\
       tryCatch (tryCmd W adcCommand)
         (fun _ => tryCatch (tryCmd W userCommand) (fun _ => throw FailedToGetVertexToken))
       = ([EvExec adcCommand], Ok (JsString.trim out))) \/
    (exists out, exec W userCommand = Some out /\ JsString.trim out <> EmptyString /\
       tryCatch (tryCmd W adcCommand)
         (fun _ => tryCatch (tryCmd W userCommand) (fun _ => throw FailedToGetVertexToken))
       = ([EvExec adcCommand; EvExec userCommand], Ok (JsString.trim out))) \/
    tryCatch (tryCmd W adcCommand)
      (fun _ => tryCatch (tryCmd W userCommand) (fun _ => throw FailedToGetVertexToken))
    = ([EvExec adcCommand; EvExec userCommand], Throw FailedToGetVertexToken)).
  { assert (One : forall cmd,
              (exists out, exec W cmd = Some out /\ JsString.trim out <> EmptyString /\
                 tryCmd W cmd = ([EvExec cmd], Ok (JsString.trim out))) \/
              (exists e, tryCmd W cmd = ([EvExec cmd], Throw e))).
    { intros cmd. unfold tryCmd, call.
      destruct (exec W cmd) as [out|]; cbn [bind]; [|right; eexists; reflexivity].
      destruct (JsString.isEmpty (JsString.trim out)) eqn:E.
      - right. eexists. reflexivity.
      - left. exists out. split; [reflexivity|].
        split; [apply JsStringFacts.isEmpty_false; exact E | reflexivity]. }
    destruct (One adcCommand) as [(out & X & N & R) | (e1 & R)]; rewrite R; cbn [tryCatch].
    - left. exists out. auto.
    - right.
      destruct (One userCommand) as [(out & X & N & R2) | (e2 & R2)]; rewrite R2;
        cbn [tryCatch throw app].
      + left. exists out. auto.
      + right. reflexivity. }
  change "gcloud auth application-default print-access-token" with adcCommand.
  change "gcloud auth print-access-token" with userCommand.
  set (chain := tryCatch (tryCmd W adcCommand) _) in *.
  assert (Lib : forall (fromLibrary : M (option string)),
            fromLibrary = ([EvAuthLibrary], Ok None) ->
            (exists out, exec W adcCommand = Some out /\ JsString.trim out <> EmptyString /\
               bind fromLibrary (fun o => match o with Some t => ret t | None => chain end)
               = ([EvAuthLibrary; EvExec adcCommand], Ok (JsString.trim out))) \/
            (exists out, exec W userCommand = Some out /\ JsString.trim out <> EmptyString /\
               bind fromLibrary (fun o => match o with Some t => ret t | None => chain end)
               = ([EvAuthLibrary; EvExec adcCommand; EvExec userCommand],
                  Ok (JsString.trim out))) \/
            bind fromLibrary (fun o => match o with Some t => ret t | None => chain end)
            = ([EvAuthLibrary; EvExec adcCommand; EvExec userCommand],
               Throw FailedToGetVertexToken)).
  { intros fromLibrary ->. cbn [bind].
    destruct Cmds as [(out & X & N & R) | [(out & X & N & R) | R]]; rewrite R; eauto 7. }
  unfold call.
  destruct (authLibraryToken W) as [[t|]|] eqn:A; cbn [bind tryCatch ret app].
  - destruct (negb (JsString.isEmpty t) && (JsString.length (JsString.trim t) >? 0)) eqn:C.
    + left. exists t. split; [reflexivity|].
      apply andb_true_iff in C. destruct C as [_ C].
      split; [apply length_positive; exact C | reflexivity].
    + right. apply (Lib ([EvAuthLibrary], Ok None) eq_refl).
  - right. apply (Lib ([EvAuthLibrary], Ok None) eq_refl).
  - right. apply (Lib ([EvAuthLibrary], Ok None) eq_refl).
Qed.

Lemma length_gtb s : (JsString.length s >? 0) = negb (JsString.isEmpty s).
Proof. destruct s; reflexivity. Qed.

Lemma explicit_usable (o : option string) :
  truthyString o && (JsString.length (JsString.trim (orElse o EmptyString)) >? 0)
  = match usable o with Some _ => true | None => false end /\
  forall t, usable o = Some t -> JsString.trim (orElse o EmptyString) = t.
Proof.
  destruct o as [[|c r]|].
  - split; [reflexivity | intros t H; discriminate H].
  - cbn [truthyString orElse andb]. rewrite length_gtb. unfold usable.
    destruct (JsString.isEmpty (JsString.trim (String c r))); split;
      try reflexivity; intros t H; [discriminate H | injection H as <-; reflexivity].
  - split; [reflexivity | intros t H; discriminate H].
Qed.

Lemma library_usable (W : World) :
  tryCatch
    (bind (call EvAuthLibrary (authLibraryToken W) FailedToGetVertexToken)
       (fun token : option string =>
          match token with
          | Some t =>
              if negb (JsString.isEmpty t) && (JsString.length (JsString.trim t) >? 0)
              then ret (Some (JsString.trim t))
              else ret None
          | None => ret None
          end))
    (fun _ => ret None)
  = ([EvAuthLibrary], Ok (usable (libraryToken W))).
Proof.
  unfold libraryToken, call.
  destruct (authLibraryToken W) as [[[|c r]|]|]; try reflexivity.
  cbn [bind]. rewrite length_gtb. unfold usable. cbn [JsString.isEmpty negb andb].
  destruct (JsString.isEmpty (JsString.trim (String c r))); reflexivity.
Qed.

Lemma tryCmd_usable (W : World) (cmd : string) :
  match usable (exec W cmd) with
  | Some t => tryCmd W cmd = ([EvExec cmd], Ok t)
  | None => exists e, tryCmd W cmd = ([EvExec cmd], Throw e)
  end.
Proof.
  unfold tryCmd, call, usable.
  destruct (exec W cmd) as [out|]; cbn [bind]; [|eexists; reflexivity].
  destruct (JsString.isEmpty (JsString.trim out)); [eexists|]; reflexivity.
Qed.

(** The chain as a cascade: the first source that gives a token decides. *)
Lemma getVertexAccessToken_decides env W :
  getVertexAccessToken env W =
    match usable (env "GOOGLE_OAUTH_ACCESS_TOKEN") with
    | Some t => ([], Ok t)
    | None =>
        match usable (libraryToken W) with
        | Some t => ([EvAuthLibrary], Ok t)
        | None =>
            match usable (exec W adcCommand) with
            | Some t => ([EvAuthLibrary; EvExec adcCommand], Ok t)
            | None =>
                match usable (exec W userCommand) with
                | Some t => ([EvAuthLibrary; EvExec adcCommand; EvExec userCommand], Ok t)
                | None => ([EvAuthLibrary; EvExec adcCommand; EvExec userCommand],
                           Throw FailedToGetVertexToken)
                end
            end
        end
    end.
Proof.
  unfold getVertexAccessToken. cbv zeta.
  destruct (explicit_usable (env "GOOGLE_OAUTH_ACCESS_TOKEN")) as [C T]. rewrite C.
  destruct (usable (env "GOOGLE_OAUTH_ACCESS_TOKEN")) as [t|].
  - rewrite (T t eq_refl). reflexivity.
  - clear C T. rewrite library_usable. cbn [bind].
    destruct (usable (libraryToken W)) as [t|]; [reflexivity|].
    change "gcloud auth application-default print-access-token" with adcCommand.
    change "gcloud auth print-access-token" with userCommand.
    pose proof (tryCmd_usable W adcCommand) as A.
    pose proof (tryCmd_usable W userCommand) as U.
    destruct (usable (exec W adcCommand)) as [t|].
    + rewrite A. reflexivity.
    + destruct A as (e & ->). cbn [tryCatch].
      destruct (usable (exec W userCommand)) as [t|].
      * rewrite U. reflexivity.
      * destruct U as (e' & ->). reflexivity.
Qed.

(** X20. The token for Vertex comes from the first source that gives one,
    in the order of the chain. The explicit token, when it is more than
    white space, is returned without a single call. Otherwise the
    credentials library is asked, and its token ends the chain. Only when
    it gave nothing is the command for the application default
    credentials run, and only when that gave nothing too, the command for
    the user's credentials. The chain fails when all four gave nothing,
    after the last command. A source that comes after the one that gave
    the token is not asked. *)
Theorem vertex_token_chain (env : Env) (W : World) :
  let run := getVertexAccessToken env W in
  let explicit := usable (env "GOOGLE_OAUTH_ACCESS_TOKEN") in
  let library := usable (libraryToken W) in
  let adc := usable (exec W adcCommand) in
  let user := usable (exec W userCommand) in
  (forall t, explicit = Some t -> run = ([], Ok t)) /\
  (explicit = None ->
   (forall t, library = Some t -> run = ([EvAuthLibrary], Ok t)) /\
   (library = None ->
    (forall t, adc = Some t -> run = ([EvAuthLibrary; EvExec adcCommand], Ok t)) /\
    (adc = None ->
     (forall t, user = Some t ->
        run = ([EvAuthLibrary; EvExec adcCommand; EvExec userCommand], Ok t)) /\
     (user = None ->
        run = ([EvAuthLibrary; EvExec adcCommand; EvExec userCommand],
               Throw FailedToGetVertexToken))))).
Proof.
  intros run explicit library adc user.
  subst run. rewrite getVertexAccessToken_decides.
  fold explicit library adc user.
  split; [intros t ->; reflexivity|]. intros ->.
  split; [intros t ->; reflexivity|]. intros ->.
  split; [intros t ->; reflexivity|]. intros ->.
  split; [intros t ->; reflexivity|]. intros ->. reflexivity.
Qed.

(** The chain on three machines: an explicit token with a line break
    after it, and the library is not asked although it has a token; no
    explicit token and a library with a token, and no command is run;
    neither, and the second command gives the token. *)
Example vertex_token_chain_runs :
  getVertexAccessToken
    (fun k => if String.eqb k "GOOGLE_OAUTH_ACCESS_TOKEN"
              then Some (String "a" (String "b" (String "010"%char EmptyString)))
              else None)
    {| requestGet := requestGet deadWorld; readFile := readFile deadWorld;
       fileURLToPath := fileURLToPath deadWorld; sharpMetadata := sharpMetadata deadWorld;
       sharpResizeInside := sharpResizeInside deadWorld;
       requestPost := requestPost deadWorld;
       authLibraryToken := Some (Some "lib"); exec := fun _ => Some "cmd" |}
  = ([], Ok "ab") /\
  getVertexAccessToken emptyEnv
    {| requestGet := requestGet deadWorld; readFile := readFile deadWorld;
       fileURLToPath := fileURLToPath deadWorld; sharpMetadata := sharpMetadata deadWorld;
       sharpResizeInside := sharpResizeInside deadWorld;
       requestPost := requestPost deadWorld;
       authLibraryToken := Some (Some "lib"); exec := fun _ => Some "cmd" |}
  = ([EvAuthLibrary], Ok "lib") /\
  getVertexAccessToken vertexEnv Toy.gcloudWorld
  = ([EvAuthLibrary; EvExec adcCommand; EvExec userCommand], Ok "t0k").
Proof. repeat split. Qed.

Lemma vertex_token_nonempty env W token :
  outcome (getVertexAccessToken env W) = Ok token -> token <> EmptyString.
Proof.
  destruct (getVertexAccessToken_cases env W)
    as [(x & X & N & R) | [(x & X & N & R) | [(x & X & N & R) | [(x & X & N & R) | R]]]];
    rewrite R; cbn [outcome snd]; intros E; try discriminate E; injection E as <-; exact N.
Qed.

(** X21. No request goes out without credentials: a request of AI Studio
    has the key, which is not empty, at the end of its URL and no
    [Authorization] header; a request of Vertex has a bearer token that
    is not empty. Both declare a JSON body. *)
Theorem request_carries_credentials (env : Env) (W : World)
    (parts body : list GeminiPart) (url : string) (headers : list (string * string)) :
  In (EvRequestPost url headers body) (log (callGemini env W parts)) ->
  lookup "Content-Type" headers = Some "application/json" /\
  if String.eqb (PROVIDER (loadConfig env)) "vertex"
  then exists token, token <> EmptyString /\
         lookup "Authorization" headers = Some ("Bearer " ++ token)
  else lookup "Authorization" headers = None /\
       exists key, key <> EmptyString /\ env "GEMINI_API_KEY" = Some key /\
         url = "https://generativelanguage.googleapis.com/v1beta/"
               ++ normalizeModelName (MODEL (loadConfig env)) "ais"
               ++ ":generateContent?key=" ++ key.
Proof.
  unfold callGemini.
  destruct (String.eqb (PROVIDER (loadConfig env)) "vertex").
  - unfold callGeminiVertex.
    destruct (negb (truthyString (env "GOOGLE_CLOUD_PROJECT"))); [intros []|].
    intros H. apply in_log_bind in H. destruct H as [H | (token & T & H)].
    + exfalso. apply (getVertexAccessToken_no_post env W _ H). exact I.
    + pose proof (post_of_call _ _ _ _ _ _ _ _ _ (readResponse_log "Vertex") H)
        as (-> & -> & ->).
      split; [reflexivity|]. exists token.
      split; [apply (vertex_token_nonempty env W token T) | reflexivity].
  - unfold callGeminiAIStudio.
    destruct (truthyString (API_KEY (loadConfig env))) eqn:K; cbn [negb]; [|intros []].
    intros H.
    pose proof (post_of_call _ _ _ _ _ _ _ _ _ (readResponse_log "Gemini") H)
      as (-> & -> & ->).
    split; [reflexivity|]. split; [reflexivity|].
    unfold loadConfig in K |- *. cbn [API_KEY MODEL] in K |- *.
    destruct (env "GEMINI_API_KEY") as [[|c k]|]; try discriminate K.
    exists (String c k). split; [discriminate|]. split; reflexivity.
Qed.

Lemma request_carries_credentials_witness :
  lookup "Content-Type"
    [("Content-Type", "application/json"); ("Authorization", "Bearer t0k")]
    = Some "application/json" /\
  exists token, token <> EmptyString /\
    lookup "Authorization"
      [("Content-Type", "application/json"); ("Authorization", "Bearer t0k")]
      = Some ("Bearer " ++ token).
Proof.
  apply (request_carries_credentials vertexEnv Toy.gcloudWorld
           [textPart "describe"] [textPart "describe"]
           "https://us-central1-aiplatform.googleapis.com/v1/projects/demo/locations/us-central1/publishers/google/models/gemini-flash-lite-latest:generateContent").
  do 3 right. left. reflexivity.
Defined.

(** [callGemini_sent], with the name of the provider. *)
Lemma callGemini_sent_label env W parts url headers body :
  In (EvRequestPost url headers body) (log (callGemini env W parts)) ->
  outcome (callGemini env W parts) =
    match requestPost W url headers parts with
    | Some response => outcome (readResponse (providerLabel env) response)
    | None => Throw (RequestRejected url)
    end.
Proof.
  unfold callGemini, providerLabel.
  destruct (String.eqb (PROVIDER (loadConfig env)) "vertex").
  - unfold callGeminiVertex.
    destruct (negb (truthyString (env "GOOGLE_CLOUD_PROJECT"))); [intros []|].
    intros H. apply in_log_bind in H. destruct H as [H | (tok & Htok & H)].
    + exfalso. apply (getVertexAccessToken_no_post env W _ H). exact I.
    + rewrite (outcome_bind _ _ tok Htok).
      pose proof (post_of_call _ _ _ _ _ _ _ _ _ (readResponse_log "Vertex") H)
        as (-> & -> & ->).
      apply outcome_bind_call.
  - unfold callGeminiAIStudio.
    destruct (negb (truthyString (API_KEY (loadConfig env)))); [intros []|].
    intros H.
    pose proof (post_of_call _ _ _ _ _ _ _ _ _ (readResponse_log "Gemini") H)
      as (-> & -> & ->).
    apply outcome_bind_call.
Qed.

(** X22. What the provider's response does to the call. A request that
    is rejected, and a body that is no JSON, never give an answer; for
    such a body the error of the code, with the provider's name and the
    status, is thrown only when the body can still be read as text, and
    otherwise the rejection of that second read is what escapes. A
    status other than 200 never gives an answer, even when the body
    holds candidates: the error carries the provider's name, the status
    and the message of the body's [error]. *)
Theorem provider_response_decides (env : Env) (W : World)
    (parts body : list GeminiPart) (url : string) (headers : list (string * string)) :
  In (EvRequestPost url headers body) (log (callGemini env W parts)) ->
  let run := callGemini env W parts in
  match requestPost W url headers parts with
  | None => forall text, outcome run <> Ok text
  | Some response =>
      let status := postStatusCode response in
      (postJson response = None ->
       (forall text, outcome run <> Ok text) /\
       (postText response = None -> outcome run = Throw BodyRejected) /\
       (postText response <> None ->
        outcome run = Throw (FailedToParseResponse (providerLabel env) status))) /\
      (status <> 200 ->
       (forall text, outcome run <> Ok text) /\
       (forall json message,
          postJson response = Some json -> apiErrorMessage json = Ok message ->
          outcome run = Throw (GeminiApiError (providerLabel env) status message)))
  end.
Proof.
  intros H run. subst run. rewrite (callGemini_sent_label _ _ _ _ _ _ H).
  destruct (requestPost W url headers parts) as [response|]; [|discriminate].
  cbv zeta. unfold readResponse. split.
  - intros ->. destruct (postText response) as [text|].
    + split; [discriminate|]. split; [discriminate | reflexivity].
    + split; [discriminate|]. split; [reflexivity | contradiction].
  - intros S. destruct (Z.eqb_spec (postStatusCode response) 200) as [E|_]; [contradiction|].
    cbn [negb]. split.
    + intros text. destruct (postJson response) as [json|];
        [|destruct (postText response); discriminate].
      unfold liftResult. destruct (apiErrorMessage json); discriminate.
    + intros json message -> ->. reflexivity.
Qed.

(** A provider that answers 429 with a message, and one whose body is no
    JSON and cannot be read again. *)
Lemma provider_response_decides_witness :
  outcome (callGemini keyEnv Toy.busyWorld [textPart "describe"])
  = Throw (GeminiApiError "Gemini" 429 (Some "quota")) /\
  outcome (callGemini keyEnv Toy.garbledWorld [textPart "describe"])
  = Throw BodyRejected.
Proof.
  split.
  - pose proof (provider_response_decides keyEnv Toy.busyWorld
                  [textPart "describe"] [textPart "describe"]
                  "https://generativelanguage.googleapis.com/v1beta/models/gemini-flash-lite-latest:generateContent?key=secret"
                  [("Content-Type", "application/json")]
                  (or_introl eq_refl)) as P.
    cbv zeta in P. cbn [Toy.busyWorld requestPost postStatusCode postJson] in P.
    destruct P as [_ P]. destruct (P ltac:(discriminate)) as [_ Q].
    exact (Q _ (Some "quota") eq_refl eq_refl).
  - pose proof (provider_response_decides keyEnv Toy.garbledWorld
                  [textPart "describe"] [textPart "describe"]
                  "https://generativelanguage.googleapis.com/v1beta/models/gemini-flash-lite-latest:generateContent?key=secret"
                  [("Content-Type", "application/json")]
                  (or_introl eq_refl)) as P.
    cbv zeta in P. cbn [Toy.garbledWorld requestPost postStatusCode postJson postText] in P.
    destruct P as [P _]. destruct (P eq_refl) as (_ & B & _).
    exact (B eq_refl).
Defined.

(** X23. Only the first candidate of the response is read: the other
    candidates, and the other fields of the envelope, do not change the
    answer, and an envelope without [candidates] gives the empty text and
    no error. *)
Theorem only_first_candidate_is_read (fields : list (string * Json)) :
  match lookup "candidates" fields with
  | Some (JArray (candidate :: rest)) =>
      extractText (JObject fields)
      = extractText (JObject [("candidates", JArray [candidate])])
  | Some (JArray []) | Some JNull | None =>
      extractText (JObject fields) = Ok EmptyString
  | Some _ => True
  end.
Proof.
  destruct (lookup "candidates" fields) as [[| | | |[|candidate rest]|]|] eqn:L;
    try exact I.
  - apply extractText_no_candidates. rewrite L. reflexivity.
  - unfold extractText. cbn [Js.getProp]. rewrite L. reflexivity.
  - rewrite (extractText_first_candidate fields candidate rest L).
    symmetry. apply (extractText_first_candidate _ candidate []). reflexivity.
  - apply extractText_no_candidates. rewrite L. reflexivity.
Qed.
